(** * cheesy-mcp: the cheese image scraper and its queueing agent

    A shallow embedding of [cheese_scraper.py] and [cheese_agent.py], and
    the properties of the two that their specification states.

    - [PyValue]: the Python values that travel through [json.load] and
      [json.dump], with the dynamic checks of the operators the agent applies
      to them, and the exceptions those checks raise.
    - [Platform]: the library functions the program calls (hashlib, base64,
      PIL, urllib, pathlib), taken as an interface.
    - [cheese_scraper]: [CheeseScraper] and its methods.
    - [cheese_agent]: [CheeseScrapingAgent] and its methods.
    - [spec]: the predicates the properties are stated with.
    - [demo]: a platform and data to run the definitions on.
    - [scraper_properties], [agent_properties]: the properties.
    - [instances]: the properties and the program at work on [demo].

    Logging is left out everywhere: it has no influence on any value below.
    Files are written and removed in one piece, and a file that is open can
    be removed. *)

From Stdlib Require Import ZArith Bool Ascii.
From stdpp Require Import base option list gmap strings.

Set Warnings "-register-all".

(** ** Python values and exceptions *)

Module PyValue.

(** What [json.load] produces and [json.dump] accepts.  Numbers are the
    integers: the agent itself only ever writes integer counters. *)
Inductive json : Type :=
  | JNull
  | JBool (b : bool)
  | JInt (z : Z)
  | JStr (s : string)
  | JArr (items : list json)
  | JObj (fields : list (string * json)).

Inductive exn : Type :=
  | TypeError
  | KeyError
  | AttributeError
  | ValueError
  | FileNotFoundError
  | OtherError (msg : string).

Inductive result (A : Type) : Type :=
  | Ok (a : A)
  | Raise (e : exn).
Arguments Ok {A} a.
Arguments Raise {A} e.

Definition rbind {A B} (r : result A) (k : A -> result B) : result B :=
  match r with
  | Ok a => k a
  | Raise e => Raise e
  end.

(** A dict keeps its keys in insertion order; assigning to a key that is
    present replaces the value where it stands. *)
Fixpoint dict_get (k : string) (d : list (string * json)) : option json :=
  match d with
  | [] => None
  | (k', v) :: rest => if String.eqb k' k then Some v else dict_get k rest
  end.

Fixpoint dict_set (k : string) (v : json) (d : list (string * json))
  : list (string * json) :=
  match d with
  | [] => [(k, v)]
  | (k', v') :: rest =>
      if String.eqb k' k then (k, v) :: rest else (k', v') :: dict_set k v rest
  end.

Definition is_str (k : string) (j : json) : bool :=
  match j with
  | JStr s => String.eqb s k
  | _ => false
  end.

Definition is_substring (k s : string) : bool :=
  match String.index 0 k s with
  | Some _ => true
  | None => false
  end.

(** [j[k]] for a string [k]. *)
Definition getitem (j : json) (k : string) : result json :=
  match j with
  | JObj d =>
      match dict_get k d with
      | Some v => Ok v
      | None => Raise KeyError
      end
  | _ => Raise TypeError
  end.

(** [j[k] = v] for a string [k]. *)
Definition setitem (j : json) (k : string) (v : json) : result json :=
  match j with
  | JObj d => Ok (JObj (dict_set k v d))
  | _ => Raise TypeError
  end.

(** [k in j] for a string [k]: key of a dict, element of a list, substring of
    a string; the other values are not containers. *)
Definition contains (j : json) (k : string) : result bool :=
  match j with
  | JObj d => Ok (bool_decide (is_Some (dict_get k d)))
  | JArr l => Ok (existsb (is_str k) l)
  | JStr s => Ok (is_substring k s)
  | _ => Raise TypeError
  end.

(** [j + n] for an integer [n] ([bool] is a subclass of [int]). *)
Definition add_int (j : json) (n : Z) : result json :=
  match j with
  | JInt z => Ok (JInt (z + n))
  | JBool b => Ok (JInt (Z.b2z b + n))
  | _ => Raise TypeError
  end.

(** [for p in j]: the elements of a list, the keys of a dict, the characters
    of a string. *)
Definition iterate (j : json) : result (list json) :=
  match j with
  | JArr l => Ok l
  | JObj d => Ok (map (fun kv => JStr (fst kv)) d)
  | JStr s =>
      Ok (map (fun c => JStr (String c EmptyString)) (String.list_ascii_of_string s))
  | _ => Raise TypeError
  end.

(** Only hashable values can be put in a set. *)
Definition hashable (j : json) : bool :=
  match j with
  | JArr _ | JObj _ => false
  | _ => true
  end.

(** [j.append(x)]. *)
Definition append (j : json) (x : json) : result json :=
  match j with
  | JArr l => Ok (JArr (l ++ [x]))
  | _ => Raise AttributeError
  end.

(** The integer a value counts as, when it is one. *)
Definition as_int (j : json) : option Z :=
  match j with
  | JInt z => Some z
  | JBool b => Some (Z.b2z b)
  | _ => None
  end.

(** [l[:n]]. *)
Definition slice_to {A} (n : Z) (l : list A) : list A :=
  if (0 <=? n)%Z then take (Z.to_nat n) l
  else take (length l - Z.to_nat (- n)) l.

(** [s.replace(old, new)] for single characters. *)
Fixpoint replace_char (old new : ascii) (s : string) : string :=
  match s with
  | EmptyString => EmptyString
  | String c rest =>
      String (if Ascii.eqb c old then new else c) (replace_char old new rest)
  end.

(** [s.split(sep, 1)] for a single character [sep]: [None] when [sep] does not
    occur (the list then has one element), the two parts otherwise. *)
Fixpoint split_once (sep : ascii) (s : string) : option (string * string) :=
  match s with
  | EmptyString => None
  | String c rest =>
      if Ascii.eqb c sep then Some (EmptyString, rest)
      else match split_once sep rest with
           | Some (h, t) => Some (String c h, t)
           | None => None
           end
  end.

End PyValue.
Export PyValue.

Notation "x <- r ;; k" := (rbind r (fun x => k))
  (at level 100, r at next level, right associativity, only parsing).

(** ** The libraries the program calls *)

Definition is_hex_digit (c : ascii) : bool :=
  let n := nat_of_ascii c in
  ((48 <=? n) && (n <=? 57)) || ((97 <=? n) && (n <=? 102)).

Class Platform : Type := {
  (** [hashlib.md5(data).hexdigest()] *)
  md5_hexdigest : string -> string;
  (** [base64.b64decode(s)]; [None] when it raises *)
  b64decode : string -> option string;
  (** [Image.open] on a file with these bytes: (width, height), [None] when
      it raises *)
  image_size : string -> option (Z * Z);
  (** [requests.compat.urlencode] *)
  urlencode : list (string * string) -> string;
  (** [Path(p).stem] *)
  path_stem : string -> string;
  (** [str(Path(p).resolve())] *)
  path_resolve : string -> string;
  md5_hexdigest_length : forall data, String.length (md5_hexdigest data) = 32;
  md5_hexdigest_hex :
    forall data,
      forallb is_hex_digit (String.list_ascii_of_string (md5_hexdigest data)) = true;
  path_resolve_absolute : forall p, String.prefix "/" (path_resolve p) = true
}.

(** ** cheese_scraper.py *)

Module cheese_scraper.
Section WithPlatform.
Context {P : Platform}.

(** The image directory: the bytes of each file by path, and the paths that
    cannot be opened for writing. *)
Record imgfs : Type := {
  files : gmap string string;
  unwritable : gset string
}.

Definition write_file (path data : string) (fs : imgfs) : imgfs :=
  {| files := <[path := data]> (files fs); unwritable := unwritable fs |}.

Definition unlink (path : string) (fs : imgfs) : imgfs :=
  {| files := delete path (files fs); unwritable := unwritable fs |}.

(** One visit of the browser to a search URL: the driver does not start;
    or it starts and raises before the scan (no page, no image element
    within the wait); or it shows the [g-img] elements in page order, each
    with the [src] of its inner [img] ([None] when there is no inner [img]
    or no [src]).  A driver that started is quit at the end, and
    [quit_ok] tells whether [driver.quit()] returns. *)
Inductive visit : Type :=
  | NoDriver
  | Broken (quit_ok : bool)
  | Shown (elements : list (option string)) (quit_ok : bool).

Definition browser : Type := string -> visit.

Record CheeseScraper : Type := {
  output_dir : string;
  cheese_types : list string;
  min_width : Z;
  min_height : Z;
  max_file_size : Z
}.

(** [CheeseScraper.__init__] *)
Definition new_CheeseScraper : CheeseScraper :=
  {| output_dir := "scraped_cheese_images";
     cheese_types :=
       ["semi soft"; "bloomy"; "blue"; "hard"; "washed rind"; "fresh"];
     min_width := 100;
     min_height := 100;
     max_file_size := 10 * 1024 * 1024 |}.

Record Metadata : Type := {
  tags : list string;
  context : list (string * string)
}.

Record Candidate : Type := {
  cand_id : string;
  cand_file_path : string;
  cand_cheese_type : string;
  cand_metadata : Metadata
}.

(** [output_dir / filename] *)
Definition path_join (dir name : string) : string := dir +:+ "/" +:+ name.

Definition get_search_url (cheese_type : string) : string :=
  "https://www.google.com/search?" +:+
  urlencode [("q", cheese_type +:+ " cheese"); ("tbm", "isch"); ("as_st", "y");
             ("imgtype", "photo"); ("tbs", "sur:cl")].

(** The scan over the [g-img] elements. *)
Fixpoint collect_sources (elements : list (option string))
    (image_data_list : list string) : list string :=
  match elements with
  | [] => image_data_list
  | None :: rest => collect_sources rest image_data_list
  | Some src :: rest =>
      if String.prefix "data:image" src
         && negb (bool_decide (src ∈ image_data_list))
      then collect_sources rest (image_data_list ++ [src])
      else collect_sources rest image_data_list
  end.

(** The [finally] clause: an exception of [driver.quit()] replaces the value
    that was about to be returned. *)
Definition quit_driver {A} (quit_ok : bool) (returned : A) : result A :=
  if quit_ok then Ok returned else Raise (OtherError "driver.quit").

Definition scrape_image_data (web : browser) (search_url : string)
    (max_images : Z) : result (list string) :=
  match web search_url with
  | NoDriver => Ok []
  | Broken quit_ok => quit_driver quit_ok []
  | Shown elements quit_ok =>
      let image_data_list := collect_sources elements [] in
      quit_driver quit_ok
        match image_data_list with
        | [] => []
        | _ => slice_to max_images image_data_list
        end
  end.

(** [Image.open(path)], read as far as its size. *)
Definition image_open (path : string) (fs : imgfs) : option (Z * Z) :=
  match files fs !! path with
  | Some bytes => image_size bytes
  | None => None
  end.

(** Every exception inside the [try] ends in [return None]: the unpacking of
    a split without separator, the decoder, [open], [Image.open]. *)
Definition save_base64_image (self : CheeseScraper) (base64_data filename : string)
    (fs : imgfs) : imgfs * option string :=
  match split_once "," base64_data with
  | None => (fs, None)
  | Some (header, encoded) =>
      match b64decode encoded with
      | None => (fs, None)
      | Some image_data =>
          if (Z.of_nat (String.length image_data) >? max_file_size self)%Z
          then (fs, None)
          else
            let file_path := path_join (output_dir self) filename in
            if bool_decide (file_path ∈ unwritable fs) then (fs, None)
            else
              let fs1 := write_file file_path image_data fs in
              match image_open file_path fs1 with
              | None => (fs1, None)
              | Some (width, height) =>
                  if (width <? min_width self)%Z || (height <? min_height self)%Z
                  then (unlink file_path fs1, None)
                  else (fs1, Some file_path)
              end
      end
  end.

Definition analyze_image_content (today : string) (file_path : string)
    (cheese_type : string) : Metadata :=
  {| tags := ["cheese"; cheese_type];
     context := [("source", "google-images");
                 ("license", "creative-commons");
                 ("scrape_date", today)] |}.

(** The name of the file a payload is saved under. *)
Definition candidate_filename (cheese_type b64_data : string) : string :=
  let file_hash := String.substring 0 10 (md5_hexdigest b64_data) in
  replace_char " " "_" cheese_type +:+ "_" +:+ file_hash +:+ ".jpg".

(** The local state of [find_and_download_candidates]. *)
Record search : Type := {
  candidates_found : list Candidate;
  processed_count : Z;
  disk_images : imgfs
}.

Definition reached (max_total_images : Z) (st : search) : bool :=
  (Z.of_nat (length (candidates_found st)) >=? max_total_images)%Z.

(** One payload of the inner loop, past the [break] test. *)
Definition process_payload (self : CheeseScraper) (today cheese_type : string)
    (b64_data : string) (st : search) : search :=
  let filename := candidate_filename cheese_type b64_data in
  let '(fs, saved) := save_base64_image self b64_data filename (disk_images st) in
  match saved with
  | None =>
      {| candidates_found := candidates_found st;
         processed_count := processed_count st + 1;
         disk_images := fs |}
  | Some file_path =>
      let metadata := analyze_image_content today file_path cheese_type in
      let candidate :=
        {| cand_id := filename;
           cand_file_path := file_path;
           cand_cheese_type := cheese_type;
           cand_metadata := metadata |} in
      {| candidates_found := candidates_found st ++ [candidate];
         processed_count := processed_count st + 1;
         disk_images := fs |}
  end.

Fixpoint payload_loop (self : CheeseScraper) (today cheese_type : string)
    (max_total_images : Z) (image_data_list : list string) (st : search) : search :=
  match image_data_list with
  | [] => st
  | b64_data :: rest =>
      if reached max_total_images st then st
      else payload_loop self today cheese_type max_total_images rest
             (process_payload self today cheese_type b64_data st)
  end.

(** The outer loop; nothing catches what [scrape_image_data] raises. *)
Fixpoint type_loop (self : CheeseScraper) (web : browser) (today : string)
    (max_total_images : Z) (types : list string) (st : search)
    : search * result unit :=
  match types with
  | [] => (st, Ok tt)
  | cheese_type :: rest =>
      if reached max_total_images st then (st, Ok tt)
      else
        let search_url := get_search_url cheese_type in
        let images_per_type :=
          (max_total_images `div` Z.of_nat (length (cheese_types self)) + 1)%Z in
        match scrape_image_data web search_url images_per_type with
        | Raise e => (st, Raise e)
        | Ok image_data_list =>
            let st1 :=
              payload_loop self today cheese_type max_total_images
                image_data_list st in
            if reached max_total_images st1 then (st1, Ok tt)
            else type_loop self web today max_total_images rest st1
        end
  end.

Definition find_and_download_candidates (self : CheeseScraper) (web : browser)
    (today : string) (max_total_images : Z) (fs : imgfs)
    : imgfs * result (list Candidate) :=
  let '(st, r) :=
    type_loop self web today max_total_images (cheese_types self)
      {| candidates_found := []; processed_count := 0; disk_images := fs |} in
  (disk_images st,
   match r with
   | Ok _ => Ok (candidates_found st)
   | Raise e => Raise e
   end).







End WithPlatform.
End cheese_scraper.

(** ** cheese_agent.py *)

Module cheese_agent.
Import cheese_scraper.
Section WithPlatform.
Context {P : Platform}.

(** [agent_state.json]: absent, present but not loadable ([open] or
    [json.load] raises), or holding the text of a JSON value. *)
Inductive disk_state : Type :=
  | Missing
  | Corrupt
  | Stored (j : json).

Record world : Type := {
  images : imgfs;
  state_file : disk_state;
  state_file_writable : bool
}.

Record CheeseScrapingAgent : Type := {
  state : json;
  scraper : option CheeseScraper;
  daily_target : Z
}.

Definition default_state : list (string * json) :=
  [("total_images_scraped", JInt 0);
   ("pending_uploads", JArr []);
   ("daily_stats", JObj [])].

(** The loop over [default_state.items()]. *)
Fixpoint fill_defaults (st : json) (defaults : list (string * json)) : result json :=
  match defaults with
  | [] => Ok st
  | (key, value) :: rest =>
      present <- contains st key ;;
      if negb present then
        st' <- setitem st key value ;;
        fill_defaults st' rest
      else fill_defaults st rest
  end.

Definition load_agent_state (w : world) : json :=
  match state_file w with
  | Missing => JObj default_state
  | Corrupt => JObj default_state
  | Stored st =>
      match fill_defaults st default_state with
      | Ok st' => st'
      | Raise _ => JObj default_state
      end
  end.

Definition save_agent_state (self : CheeseScrapingAgent) (w : world) : world :=
  if state_file_writable w then
    {| images := images w;
       state_file := Stored (state self);
       state_file_writable := state_file_writable w |}
  else w.

(** [CheeseScrapingAgent.__init__]; [scraper_ok] tells whether
    [CheeseScraper()] returns. *)
Definition new_CheeseScrapingAgent (scraper_ok : bool) (w : world)
    : CheeseScrapingAgent :=
  {| state := load_agent_state w;
     scraper := if scraper_ok then Some new_CheeseScraper else None;
     daily_target := 10 |}.

(** Code that works on [self.state] and may raise: the state reached so far
    stays when it does. *)
Definition py (A : Type) : Type := json -> json * result A.

Definition ret {A} (a : A) : py A := fun st => (st, Ok a).

Definition bind {A B} (m : py A) (k : A -> py B) : py B :=
  fun st =>
    match m st with
    | (st', Ok a) => k a st'
    | (st', Raise e) => (st', Raise e)
    end.

Definition lift {A} (r : result A) : py A := fun st => (st, r).

Definition self_state : py json := fun st => (st, Ok st).

Definition set_state (st' : json) : py unit := fun _ => (st', Ok tt).

Notation "x <~ m ;; k" := (bind m (fun x => k))
  (at level 100, m at next level, right associativity, only parsing).

Record QueueEntry : Type := {
  entry_file_path : string;
  entry_public_id : string;
  entry_tags : string;
  entry_context : string
}.

Definition entry_json (e : QueueEntry) : json :=
  JObj [("file_path", JStr (entry_file_path e));
        ("public_id", JStr (entry_public_id e));
        ("tags", JStr (entry_tags e));
        ("context", JStr (entry_context e))].

(** The body of the loop that prepares one candidate. *)
Definition queue_entry (cand : Candidate) (bytes : string) : QueueEntry :=
  let file_path := cand_file_path cand in
  let file_hash := String.substring 0 8 (md5_hexdigest bytes) in
  let public_id :=
    "cheese-collection/" +:+ path_stem file_path +:+ "_" +:+ file_hash in
  let context_str :=
    String.concat "|"
      (map (fun kv => fst kv +:+ "=" +:+ snd kv) (context (cand_metadata cand))) in
  {| entry_file_path := "file://" +:+ path_resolve file_path;
     entry_public_id := public_id;
     entry_tags := String.concat "," (tags (cand_metadata cand));
     entry_context := context_str |}.

Fixpoint prepare (fs : imgfs) (candidates : list Candidate)
    : result (list QueueEntry) :=
  match candidates with
  | [] => Ok []
  | cand :: rest =>
      match files fs !! cand_file_path cand with
      | None => Raise FileNotFoundError
      | Some bytes =>
          pending_list <- prepare fs rest ;;
          Ok (queue_entry cand bytes :: pending_list)
      end
  end.

(** [{p['file_path'] for p in items}] *)
Fixpoint collect_paths (items : list json) : result (list json) :=
  match items with
  | [] => Ok []
  | p :: rest =>
      v <- getitem p "file_path" ;;
      if hashable v then
        paths <- collect_paths rest ;;
        Ok (v :: paths)
      else Raise TypeError
  end.

Definition existing_paths_of (st : json) : result (list json) :=
  pending <- getitem st "pending_uploads" ;;
  items <- iterate pending ;;
  collect_paths items.

(** [uri in existing_paths]: a string equals only strings. *)
Definition in_paths (uri : string) (existing_paths : list json) : bool :=
  existsb (is_str uri) existing_paths.

(** [self.state['pending_uploads'].append(item)] *)
Definition append_pending (item : json) : py unit :=
  st <~ self_state ;;
  pending <~ lift (getitem st "pending_uploads") ;;
  pending' <~ lift (append pending item) ;;
  st' <~ lift (setitem st "pending_uploads" pending') ;;
  set_state st'.

Fixpoint merge (pending_list : list QueueEntry) (existing_paths : list json)
    (new_candidates_added : Z) : py Z :=
  match pending_list with
  | [] => ret new_candidates_added
  | pending_item :: rest =>
      if negb (in_paths (entry_file_path pending_item) existing_paths) then
        _ <~ append_pending (entry_json pending_item) ;;
        merge rest (JStr (entry_file_path pending_item) :: existing_paths)
          (new_candidates_added + 1)
      else merge rest existing_paths new_candidates_added
  end.

(** [self.state['total_images_scraped'] += n] *)
Definition add_total (n : Z) : py unit :=
  st <~ self_state ;;
  v <~ lift (getitem st "total_images_scraped") ;;
  v' <~ lift (add_int v n) ;;
  st' <~ lift (setitem st "total_images_scraped" v') ;;
  set_state st'.

(** [if today_str not in self.state['daily_stats']:
       self.state['daily_stats'][today_str] = {'scraped': 0}] *)
Definition init_daily (today_str : string) : py unit :=
  st <~ self_state ;;
  daily <~ lift (getitem st "daily_stats") ;;
  present <~ lift (contains daily today_str) ;;
  if negb present then
    daily' <~ lift (setitem daily today_str (JObj [("scraped", JInt 0)])) ;;
    st' <~ lift (setitem st "daily_stats" daily') ;;
    set_state st'
  else ret tt.

(** [self.state['daily_stats'][today_str]['scraped'] += n] *)
Definition add_daily (today_str : string) (n : Z) : py unit :=
  st <~ self_state ;;
  daily <~ lift (getitem st "daily_stats") ;;
  bucket <~ lift (getitem daily today_str) ;;
  v <~ lift (getitem bucket "scraped") ;;
  v' <~ lift (add_int v n) ;;
  bucket' <~ lift (setitem bucket "scraped" v') ;;
  daily' <~ lift (setitem daily today_str bucket') ;;
  st' <~ lift (setitem st "daily_stats" daily') ;;
  set_state st'.

(** What [find_and_download_candidates] does for the agent: it works on the
    image directory and returns candidates or raises. *)
Definition discovery : Type :=
  CheeseScraper -> Z -> imgfs -> imgfs * result (list Candidate).

(** The [try] block of [run], after the call of the scraper: [None] is the
    early return, [Some n] the end of the block with [n] entries added. *)
Definition try_block (today_str : string) (fs : imgfs)
    (found : result (list Candidate)) : py (option Z) :=
  candidates <~ lift found ;;
  match candidates with
  | [] => ret None
  | _ =>
      pending_list <~ lift (prepare fs candidates) ;;
      st <~ self_state ;;
      existing_paths <~ lift (existing_paths_of st) ;;
      new_candidates_added <~ merge pending_list existing_paths 0 ;;
      _ <~ add_total new_candidates_added ;;
      _ <~ init_daily today_str ;;
      _ <~ add_daily today_str new_candidates_added ;;
      ret (Some new_candidates_added)
  end.

Definition run (find : discovery) (today_str : string)
    (self : CheeseScrapingAgent) (w : world) : CheeseScrapingAgent * world :=
  match scraper self with
  | None => (self, w)
  | Some sc =>
      let '(fs, found) := find sc (daily_target self) (images w) in
      let '(st, _) := try_block today_str fs found (state self) in
      let self' :=
        {| state := st; scraper := scraper self; daily_target := daily_target self |} in
      (self',
       save_agent_state self'
         {| images := fs;
            state_file := state_file w;
            state_file_writable := state_file_writable w |})
  end.

(** The scraper of [cheese_scraper.py] as the agent calls it. *)
Definition scraper_discovery (web : browser) (scrape_date : string) : discovery :=
  fun sc max_total_images fs =>
    find_and_download_candidates sc web scrape_date max_total_images fs.

(** [agent = CheeseScrapingAgent(); agent.run()] *)
Definition main (scraper_ok : bool) (find : discovery) (today_str : string)
    (w : world) : world :=
  snd (run find today_str (new_CheeseScrapingAgent scraper_ok w) w).

End WithPlatform.
End cheese_agent.

(** ** What the properties are stated with *)

Module spec.
Import cheese_scraper cheese_agent.
Section WithPlatform.
Context {P : Platform}.

Definition empty_fs : imgfs := {| files := ∅; unwritable := ∅ |}.

(** A candidate whose file name was derived from one of the scraper's
    categories and some payload, and whose file lies in the output
    directory under that name. *)
Definition named_by (self : CheeseScraper) (c : Candidate) : Prop :=
  exists cheese_type b64_data,
    cheese_type ∈ cheese_types self
    /\ cand_cheese_type c = cheese_type
    /\ cand_id c = candidate_filename cheese_type b64_data
    /\ cand_file_path c = path_join (output_dir self) (cand_id c).

(** The [file_path] of each entry of a pending list that has one. *)
Definition entry_paths (items : list json) : list json :=
  omap (fun p => match getitem p "file_path" with
                 | Ok v => Some v
                 | Raise _ => None
                 end) items.

(** No two entries of [pending_uploads] have the same [file_path]. *)
Definition unique_paths (st : json) : Prop :=
  forall items,
    getitem st "pending_uploads" = Ok (JArr items) -> NoDup (entry_paths items).

Definition disk_unique (d : disk_state) : Prop :=
  match d with
  | Stored st => unique_paths st
  | Missing | Corrupt => True
  end.

(** The entries of a pending list that the merge appends, given the paths
    that are taken. *)
Fixpoint fresh (pending_list : list QueueEntry) (existing_paths : list json)
    : list QueueEntry :=
  match pending_list with
  | [] => []
  | pending_item :: rest =>
      if in_paths (entry_file_path pending_item) existing_paths
      then fresh rest existing_paths
      else pending_item
           :: fresh rest (JStr (entry_file_path pending_item) :: existing_paths)
  end.

Definition entry_uri (e : QueueEntry) : json := JStr (entry_file_path e).

(** What may happen around one state file, one step at a time: a process
    builds its agent, the agent runs, and between the two anything outside
    may change the image directory and the permission on the state file. *)
Inductive action : Type :=
  | Construct (scraper_ok : bool)
  | Run (find : discovery) (today_str : string)
  | Outside (fs : imgfs) (writable : bool).

Definition perform (a : action) (sys : CheeseScrapingAgent * world)
    : CheeseScrapingAgent * world :=
  match a with
  | Construct scraper_ok => (new_CheeseScrapingAgent scraper_ok (snd sys), snd sys)
  | Run find today_str => run find today_str (fst sys) (snd sys)
  | Outside fs writable =>
      (fst sys,
       {| images := fs;
          state_file := state_file (snd sys);
          state_file_writable := writable |})
  end.

Definition perform_all (actions : list action)
    (sys : CheeseScrapingAgent * world) : CheeseScrapingAgent * world :=
  foldl (fun s a => perform a s) sys actions.

(** A queue entry as it is derived from a candidate whose file holds
    [bytes]. *)
Definition derived_from (fs : imgfs) (cand : Candidate) (e : json) : Prop :=
  exists bytes,
    files fs !! cand_file_path cand = Some bytes
    /\ e = JObj
        [("file_path", JStr ("file://" +:+ path_resolve (cand_file_path cand)));
         ("public_id",
          JStr ("cheese-collection/" +:+ path_stem (cand_file_path cand) +:+ "_"
                +:+ String.substring 0 8 (md5_hexdigest bytes)));
         ("tags", JStr (String.concat "," (tags (cand_metadata cand))));
         ("context",
          JStr (String.concat "|"
                  (map (fun kv => fst kv +:+ "=" +:+ snd kv)
                     (context (cand_metadata cand)))))].

(** The ways [save_base64_image] ends. *)
Inductive save_outcome (self : CheeseScraper) (base64_data filename : string)
    (fs : imgfs) : imgfs * option string -> Prop :=
  | Refused :
      save_outcome self base64_data filename fs (fs, None)
  | NotAnImage header encoded image_data :
      split_once "," base64_data = Some (header, encoded) ->
      b64decode encoded = Some image_data ->
      (Z.of_nat (String.length image_data) <= max_file_size self)%Z ->
      image_size image_data = None ->
      save_outcome self base64_data filename fs
        (write_file (path_join (output_dir self) filename) image_data fs, None)
  | TooSmall header encoded image_data width height :
      split_once "," base64_data = Some (header, encoded) ->
      b64decode encoded = Some image_data ->
      (Z.of_nat (String.length image_data) <= max_file_size self)%Z ->
      image_size image_data = Some (width, height) ->
      (width < min_width self \/ height < min_height self)%Z ->
      save_outcome self base64_data filename fs
        (unlink (path_join (output_dir self) filename)
           (write_file (path_join (output_dir self) filename) image_data fs),
         None)
  | Saved header encoded image_data width height :
      split_once "," base64_data = Some (header, encoded) ->
      b64decode encoded = Some image_data ->
      (Z.of_nat (String.length image_data) <= max_file_size self)%Z ->
      image_size image_data = Some (width, height) ->
      (min_width self <= width /\ min_height self <= height)%Z ->
      save_outcome self base64_data filename fs
        (write_file (path_join (output_dir self) filename) image_data fs,
         Some (path_join (output_dir self) filename)).

(** How many candidates of a list are of a category. *)
Definition of_type (t : string) (cs : list Candidate) : nat :=
  length (filter (fun c => cand_cheese_type c = t) cs).


(** Every key of the default state is [in] a value. *)
Definition defaults_in (st : json) : Prop :=
  forall key value, (key, value) ∈ default_state -> contains st key = Ok true.

Definition all_in (st : json) : bool :=
  forallb (fun kv => match contains st (fst kv) with
                     | Ok present => present
                     | Raise _ => false
                     end) default_state.

(** The counters and the queue of a state, when they are there. *)
Definition total_of (st : json) : option Z :=
  match getitem st "total_images_scraped" with
  | Ok v => as_int v
  | Raise _ => None
  end.

Definition pending_of (st : json) : option (list json) :=
  match getitem st "pending_uploads" with
  | Ok (JArr items) => Some items
  | _ => None
  end.

Definition bucket_of (day : string) (st : json) : option json :=
  match getitem st "daily_stats" with
  | Ok daily =>
      match getitem daily day with
      | Ok bucket => Some bucket
      | Raise _ => None
      end
  | Raise _ => None
  end.


(** One step on the state: nothing, or one key of the dict set anew. *)
Definition sets_a_key (st st' : json) : Prop :=
  st' = st \/ exists d key v, st = JObj d /\ st' = JObj (dict_set key v d).



End WithPlatform.
End spec.

(** ** A platform to run the definitions on

    The decoder is the library's; the digest is a checksum; a file that
    holds the word [small] stands for an image of 50x50 and one that holds
    [large] for an image of 200x200, and nothing else is an image. *)

Module demo.

Fixpoint zeros (n : nat) : string :=
  match n with
  | O => EmptyString
  | S n' => String "000"%char (zeros n')
  end.

(** A checksum in place of the digest: sixteen bits and a scrambling of
    them, in lower-case hexadecimal, four times in a row. *)
Definition hex_digit (n : N) : ascii :=
  match (n mod 16)%N with
  | 0%N => "0" | 1%N => "1" | 2%N => "2" | 3%N => "3"
  | 4%N => "4" | 5%N => "5" | 6%N => "6" | 7%N => "7"
  | 8%N => "8" | 9%N => "9" | 10%N => "a" | 11%N => "b"
  | 12%N => "c" | 13%N => "d" | 14%N => "e" | _ => "f"
  end%char.

Fixpoint checksum (data : string) (acc : N) : N :=
  match data with
  | EmptyString => acc
  | String c rest => checksum rest ((acc * 31 + N_of_ascii c) mod 65536)%N
  end.

Definition quad (c : N) (rest : string) : string :=
  String (hex_digit (c / 4096))
    (String (hex_digit (c / 256))
       (String (hex_digit (c / 16)) (String (hex_digit c) rest))).

Definition md5_hexdigest (data : string) : string :=
  let c := checksum data 7 in
  let d := (c * 40503 mod 65536)%N in
  quad c (quad d (quad c (quad d (quad c (quad d (quad c (quad d EmptyString))))))).

(** [base64.b64decode(s)] for a [str], as the library does it when [validate]
    is left at its default: the string must be ASCII; characters outside the
    alphabet are passed over; padding that completes a group ends the
    decoding; a group left incomplete at the end is an error. *)
Definition b64_value (c : ascii) : option N :=
  let n := N_of_ascii c in
  if (65 <=? n)%N && (n <=? 90)%N then Some (n - 65)%N
  else if (97 <=? n)%N && (n <=? 122)%N then Some (n - 71)%N
  else if (48 <=? n)%N && (n <=? 57)%N then Some (n + 4)%N
  else if (n =? 43)%N then Some 62%N
  else if (n =? 47)%N then Some 63%N
  else None.

Definition emit (n : N) (rest : option string) : option string :=
  match rest with
  | Some bytes => Some (String (ascii_of_N n) bytes)
  | None => None
  end.

Fixpoint a2b_base64 (s : string) (quad_pos : nat) (leftchar : N) (pads : nat)
    : option string :=
  match s with
  | EmptyString => if Nat.eqb quad_pos 0 then Some EmptyString else None
  | String c rest =>
      if Ascii.eqb c "=" then
        if (2 <=? quad_pos) && (4 <=? quad_pos + S pads) then Some EmptyString
        else a2b_base64 rest quad_pos leftchar
               (if 2 <=? quad_pos then S pads else pads)
      else
        match b64_value c with
        | None => a2b_base64 rest quad_pos leftchar pads
        | Some v =>
            match quad_pos with
            | 0 => a2b_base64 rest 1 v 0
            | 1 => emit (leftchar * 4 + v / 16)
                     (a2b_base64 rest 2 (v mod 16)%N 0)
            | 2 => emit (leftchar * 16 + v / 4)
                     (a2b_base64 rest 3 (v mod 4)%N 0)
            | _ => emit (leftchar * 64 + v) (a2b_base64 rest 0 0%N 0)
            end
        end
  end.

Definition is_ascii (c : ascii) : bool := (N_of_ascii c <? 128)%N.

Definition b64decode (s : string) : option string :=
  if forallb is_ascii (String.list_ascii_of_string s)
  then a2b_base64 s 0 0%N 0
  else None.

Definition image_size (bytes : string) : option (Z * Z) :=
  if String.eqb bytes "small" then Some (50, 50)%Z
  else if String.eqb bytes "large" then Some (200, 200)%Z
  else None.

(** [urlencode] of a dict of strings: [quote_plus] on keys and values. *)
Definition unreserved (c : ascii) : bool :=
  let n := N_of_ascii c in
  ((65 <=? n)%N && (n <=? 90)%N) || ((97 <=? n)%N && (n <=? 122)%N)
  || ((48 <=? n)%N && (n <=? 57)%N)
  || (n =? 95)%N || (n =? 46)%N || (n =? 45)%N || (n =? 126)%N.

Definition upper_hex (n : N) : ascii :=
  let c := hex_digit n in
  if (97 <=? N_of_ascii c)%N then ascii_of_N (N_of_ascii c - 32) else c.

Fixpoint quote_plus (s : string) : string :=
  match s with
  | EmptyString => EmptyString
  | String c rest =>
      if unreserved c then String c (quote_plus rest)
      else if Ascii.eqb c " " then String "+" (quote_plus rest)
      else String "%"
             (String (upper_hex (N_of_ascii c / 16))
                (String (upper_hex (N_of_ascii c)) (quote_plus rest)))
  end.

Definition urlencode (params : list (string * string)) : string :=
  String.concat "&"
    (map (fun kv => quote_plus (fst kv) +:+ "=" +:+ quote_plus (snd kv)) params).

Definition has (sep : ascii) (s : string) : bool :=
  match split_once sep s with
  | Some _ => true
  | None => false
  end.

Fixpoint after_last (sep : ascii) (s : string) : string :=
  match s with
  | EmptyString => EmptyString
  | String c rest =>
      if has sep rest then after_last sep rest
      else if Ascii.eqb c sep then rest else s
  end.

Fixpoint before_last (sep : ascii) (s : string) : string :=
  match s with
  | EmptyString => EmptyString
  | String c rest =>
      if has sep rest then String c (before_last sep rest)
      else if Ascii.eqb c sep then EmptyString else s
  end.

Definition path_stem (p : string) : string :=
  before_last "." (after_last "/" p).

Definition path_resolve (p : string) : string := "/srv/cheese/" +:+ p.

Lemma hex_digit_hex (n : N) : is_hex_digit (hex_digit n) = true.
Proof.
  unfold hex_digit.
  repeat match goal with
         | |- context [match ?x with _ => _ end] => destruct x
         end; reflexivity.
Qed.

Lemma checksum_hex (data : string) :
  forallb is_hex_digit (String.list_ascii_of_string (md5_hexdigest data)) = true.
Proof.
  unfold md5_hexdigest, quad. cbn [String.list_ascii_of_string forallb].
  now rewrite !hex_digit_hex.
Qed.

Definition platform : Platform :=
  Build_Platform md5_hexdigest b64decode image_size urlencode path_stem
    path_resolve (fun _ => eq_refl) checksum_hex (fun _ => eq_refl).

(** Data to run on: three payloads, a page that shows them among other
    elements, and two candidates with their files. *)

Definition payload_small : string := "data:image/jpeg;base64,c21hbGw=".
Definition payload_large : string := "data:image/jpeg;base64,bGFyZ2U=".

(** ['AAAA'] over and over: the encoding of three zero bytes each time. *)
Fixpoint zeros_encoded (n : nat) : string :=
  match n with
  | O => EmptyString
  | S n' => String "A" (String "A" (String "A" (String "A" (zeros_encoded n'))))
  end.

(** A payload of just over eleven mebibytes once decoded. *)
Definition huge_groups : nat := Pos.to_nat 3844779.
Definition payload_huge : string :=
  "data:image/jpeg;base64," +:+ zeros_encoded huge_groups.

Definition web : cheese_scraper.browser :=
  fun _ =>
    cheese_scraper.Shown
      [Some payload_small; None; Some payload_large;
       Some "https://example.org/brie.jpg"; Some payload_large]
      true.

(** A page with one acceptable image. *)
Definition web_large : cheese_scraper.browser :=
  fun _ => cheese_scraper.Shown [Some payload_large] true.

Definition search : cheese_agent.discovery :=
  cheese_agent.scraper_discovery (P := platform) web "2025-03-01".

Definition candidate (cheese_type : string) : cheese_scraper.Candidate :=
  let filename := cheese_scraper.candidate_filename (P := platform) cheese_type payload_large in
  let file_path := cheese_scraper.path_join "scraped_cheese_images" filename in
  {| cheese_scraper.cand_id := filename;
     cheese_scraper.cand_file_path := file_path;
     cheese_scraper.cand_cheese_type := cheese_type;
     cheese_scraper.cand_metadata :=
       cheese_scraper.analyze_image_content "2025-03-01" file_path cheese_type |}.

Definition stock : cheese_scraper.imgfs :=
  {| cheese_scraper.files :=
       <[cheese_scraper.cand_file_path (candidate "blue") := "large"]>
         (<[cheese_scraper.cand_file_path (candidate "hard") := "large"]> ∅);
     cheese_scraper.unwritable := ∅ |}.

Definition three : list cheese_scraper.Candidate :=
  [candidate "blue"; candidate "hard"; candidate "blue"].

(** A search that returns the blue candidate twice. *)
Definition search_twice : cheese_agent.discovery :=
  fun _ _ _ => (stock, Ok three).

(** The same page with a driver that cannot be quit. *)
Definition web_stuck : cheese_scraper.browser :=
  fun _ => cheese_scraper.Shown [Some payload_large] false.

Definition search_stuck : cheese_agent.discovery :=
  cheese_agent.scraper_discovery (P := platform) web_stuck "2025-03-01".

Definition fresh_world : cheese_agent.world :=
  {| cheese_agent.images := spec.empty_fs;
     cheese_agent.state_file := cheese_agent.Missing;
     cheese_agent.state_file_writable := true |}.

Definition world_with (d : cheese_agent.disk_state) : cheese_agent.world :=
  {| cheese_agent.images := spec.empty_fs;
     cheese_agent.state_file := d;
     cheese_agent.state_file_writable := true |}.

(** A state file with the blue entry queued on an earlier day. *)
Definition one_queued : json :=
  JObj [("total_images_scraped", JInt 1);
        ("pending_uploads",
         JArr [cheese_agent.entry_json
                 (cheese_agent.queue_entry (P := platform) (candidate "blue") "large")]);
        ("daily_stats", JObj [("2025-02-28", JObj [("scraped", JInt 1)])])].

(** A state file whose total is not a number. *)
Definition bad_total : json :=
  JObj [("total_images_scraped", JStr "many");
        ("pending_uploads", JArr []);
        ("daily_stats", JObj [])].

(** A search whose files are gone by the time it returns. *)
Definition search_lost : cheese_agent.discovery :=
  fun _ _ _ => (spec.empty_fs, Ok three).

(** A state file whose queue is a dict. *)
Definition bad_queue : json :=
  JObj [("total_images_scraped", JInt 0);
        ("pending_uploads", JObj []);
        ("daily_stats", JObj [])].

(** The state a world has on disk; [JNull] when there is none to load. *)
Definition stored (w : cheese_agent.world) : json :=
  match cheese_agent.state_file w with
  | cheese_agent.Stored st => st
  | _ => JNull
  end.

(** The number of entries of a pending list. *)
Definition queue_length (st : json) : option nat :=
  match getitem st "pending_uploads" with
  | Ok (JArr items) => Some (length items)
  | _ => None
  end.

End demo.

(** * Properties *)

(** ** Strings and dicts *)

Lemma zeros_length n : String.length (demo.zeros n) = n.
Proof. induction n as [|n IH]; simpl; [reflexivity | now rewrite IH]. Qed.

Lemma zeros_encoded_ascii n :
  forallb demo.is_ascii (String.list_ascii_of_string (demo.zeros_encoded n)) = true.
Proof. induction n as [|n IH]; simpl; [reflexivity | exact IH]. Qed.

Lemma zeros_encoded_decodes n :
  demo.b64decode (demo.zeros_encoded n) = Some (demo.zeros (3 * n)).
Proof.
  unfold demo.b64decode. rewrite zeros_encoded_ascii.
  induction n as [|n IH]; [reflexivity|].
  replace (3 * S n) with (S (S (S (3 * n)))) by lia.
  cbn [demo.zeros_encoded demo.zeros].
  change (demo.a2b_base64
            (String "A" (String "A" (String "A" (String "A" (demo.zeros_encoded n)))))
            0 0%N 0)
    with (demo.emit 0 (demo.emit 0 (demo.emit 0
            (demo.a2b_base64 (demo.zeros_encoded n) 0 0%N 0)))).
  now rewrite IH.
Qed.

Lemma split_data_uri body :
  split_once "," ("data:image/jpeg;base64," +:+ body)
  = Some ("data:image/jpeg;base64", body).
Proof. reflexivity. Qed.

Lemma string_length_chars s :
  String.length s = length (String.list_ascii_of_string s).
Proof. induction s as [|c s IH]; simpl; [reflexivity | now rewrite IH]. Qed.

Lemma substring_chars n s :
  String.list_ascii_of_string (String.substring 0 n s)
  = take n (String.list_ascii_of_string s).
Proof.
  revert s; induction n as [|n IH]; intros [|c s]; simpl; try reflexivity.
  now rewrite IH.
Qed.

Lemma forallb_take {A} (f : A -> bool) n (l : list A) :
  forallb f l = true -> forallb f (take n l) = true.
Proof.
  revert l; induction n as [|n IH]; intros [|x l]; simpl; try reflexivity.
  rewrite !andb_true_iff. intros [Hx Hl]. split; [assumption | now apply IH].
Qed.

Section HashPrefix.
Context {P : Platform}.

(** The first [n] characters of a digest, for [n] up to its 32. *)
Lemma digest_prefix n data :
  n <= 32 ->
  String.length (String.substring 0 n (md5_hexdigest data)) = n
  /\ forallb is_hex_digit
       (String.list_ascii_of_string (String.substring 0 n (md5_hexdigest data)))
     = true.
Proof.
  intros Hn. rewrite string_length_chars, substring_chars. split.
  - rewrite length_take, <- string_length_chars, md5_hexdigest_length. lia.
  - apply forallb_take, md5_hexdigest_hex.
Qed.

End HashPrefix.

(** ** The payload validator, [save_base64_image] *)

Module scraper_properties.
Import cheese_scraper spec.

Section WithPlatform.
Context {P : Platform}.

Lemma save_rejects_oversize self base64_data filename header encoded image_data fs :
  split_once "," base64_data = Some (header, encoded) ->
  b64decode encoded = Some image_data ->
  (Z.of_nat (String.length image_data) > max_file_size self)%Z ->
  save_base64_image self base64_data filename fs = (fs, None).
Proof.
  intros Hsplit Hdec Hlen. unfold save_base64_image.
  rewrite Hsplit, Hdec.
  destruct (Z.gtb_spec (Z.of_nat (String.length image_data)) (max_file_size self));
    [reflexivity | lia].
Qed.

Lemma image_open_written path data fs :
  image_open path (write_file path data fs) = image_size data.
Proof. unfold image_open, write_file; simpl. now rewrite lookup_insert_eq. Qed.

(** What [save_base64_image] does once the bytes are on disk. *)
Lemma save_written self base64_data filename header encoded image_data fs :
  split_once "," base64_data = Some (header, encoded) ->
  b64decode encoded = Some image_data ->
  (Z.of_nat (String.length image_data) <= max_file_size self)%Z ->
  path_join (output_dir self) filename ∉ unwritable fs ->
  save_base64_image self base64_data filename fs =
    let file_path := path_join (output_dir self) filename in
    let fs1 := write_file file_path image_data fs in
    match image_size image_data with
    | None => (fs1, None)
    | Some (width, height) =>
        if (width <? min_width self)%Z || (height <? min_height self)%Z
        then (unlink file_path fs1, None)
        else (fs1, Some file_path)
    end.
Proof.
  intros Hsplit Hdec Hlen Hw. unfold save_base64_image.
  rewrite Hsplit, Hdec.
  destruct (Z.gtb_spec (Z.of_nat (String.length image_data)) (max_file_size self));
    [lia|].
  rewrite bool_decide_eq_false_2 by assumption.
  now rewrite image_open_written.
Qed.

(** Bytes that are no image are rejected after the write, and the file
    stays. *)
Lemma save_not_an_image self base64_data filename header encoded image_data fs :
  split_once "," base64_data = Some (header, encoded) ->
  b64decode encoded = Some image_data ->
  (Z.of_nat (String.length image_data) <= max_file_size self)%Z ->
  path_join (output_dir self) filename ∉ unwritable fs ->
  image_size image_data = None ->
  save_base64_image self base64_data filename fs
  = (write_file (path_join (output_dir self) filename) image_data fs, None).
Proof.
  intros Hsplit Hdec Hlen Hw Hsize.
  rewrite (save_written _ _ _ _ _ _ _ Hsplit Hdec Hlen Hw). simpl.
  now rewrite Hsize.
Qed.

(** A path that is returned is the output directory joined with the name. *)
Lemma save_returns_joined self base64_data filename fs fs' path :
  save_base64_image self base64_data filename fs = (fs', Some path) ->
  path = path_join (output_dir self) filename.
Proof.
  unfold save_base64_image.
  destruct (split_once "," base64_data) as [[header encoded]|]; [|discriminate].
  destruct (b64decode encoded) as [image_data|]; [|discriminate].
  destruct (_ >? _)%Z; [discriminate|].
  destruct (bool_decide _); [discriminate|].
  destruct (image_open _ _) as [[width height]|]; [|discriminate].
  destruct (_ || _); [discriminate|].
  now intros [= _ <-].
Qed.

(** C5. A payload whose decoded body is longer than 10 MiB is rejected, and
    the image directory is the one the call started from: the test comes
    before the file is opened for writing. *)
Theorem save_base64_image_size_ceiling
    (base64_data filename header encoded image_data : string) (fs : imgfs) :
  split_once "," base64_data = Some (header, encoded) ->
  b64decode encoded = Some image_data ->
  (Z.of_nat (String.length image_data) > 10 * 1024 * 1024)%Z ->
  save_base64_image new_CheeseScraper base64_data filename fs = (fs, None).
Proof.
  exact (save_rejects_oversize new_CheeseScraper base64_data filename header
           encoded image_data fs).
Qed.

(** C6. Once the decoded bytes are written, the file is opened again as an
    image: below 100 pixels in width or in height the file is deleted and
    nothing is returned, otherwise the file stays and its path is returned;
    so 50x50 is rejected and removed, 200x200 is accepted. *)
Theorem save_base64_image_dimension_floor
    (base64_data filename header encoded image_data : string)
    (width height : Z) (fs : imgfs) :
  let file_path := path_join "scraped_cheese_images" filename in
  let after := save_base64_image new_CheeseScraper base64_data filename fs in
  split_once "," base64_data = Some (header, encoded) ->
  b64decode encoded = Some image_data ->
  (Z.of_nat (String.length image_data) <= 10 * 1024 * 1024)%Z ->
  file_path ∉ unwritable fs ->
  image_size image_data = Some (width, height) ->
  image_open file_path (write_file file_path image_data fs) = Some (width, height)
  /\ ((width < 100 \/ height < 100)%Z ->
      after = (unlink file_path (write_file file_path image_data fs), None)
      /\ files (fst after) !! file_path = None)
  /\ ((100 <= width /\ 100 <= height)%Z ->
      after = (write_file file_path image_data fs, Some file_path)
      /\ files (fst after) !! file_path = Some image_data)
  /\ ((width = 50 /\ height = 50)%Z ->
      snd after = None /\ files (fst after) !! file_path = None)
  /\ ((width = 200 /\ height = 200)%Z -> snd after = Some file_path).
Proof.
  intros file_path after Hsplit Hdec Hlen Hw Hsize.
  assert (Hafter : after =
            if (width <? 100)%Z || (height <? 100)%Z
            then (unlink file_path (write_file file_path image_data fs), None)
            else (write_file file_path image_data fs, Some file_path)).
  { unfold after.
    rewrite (save_written new_CheeseScraper _ _ _ _ _ _ Hsplit Hdec Hlen Hw).
    simpl. now rewrite Hsize. }
  assert (Hsmall : (width < 100 \/ height < 100)%Z ->
            after = (unlink file_path (write_file file_path image_data fs), None)
            /\ files (fst after) !! file_path = None).
  { intros Hdim. rewrite Hafter.
    replace ((width <? 100)%Z || (height <? 100)%Z) with true.
    - split; [reflexivity|]. simpl. apply lookup_delete_eq.
    - symmetry. apply orb_true_iff. rewrite !Z.ltb_lt. exact Hdim. }
  assert (Hbig : (100 <= width /\ 100 <= height)%Z ->
            after = (write_file file_path image_data fs, Some file_path)
            /\ files (fst after) !! file_path = Some image_data).
  { intros [Hwd Hht]. rewrite Hafter.
    replace ((width <? 100)%Z || (height <? 100)%Z) with false.
    - split; [reflexivity|]. simpl. apply lookup_insert_eq.
    - symmetry. apply orb_false_iff. rewrite !Z.ltb_ge. now split. }
  split; [now rewrite image_open_written|].
  split; [exact Hsmall|]. split; [exact Hbig|]. split.
  - intros [-> ->]. destruct Hsmall as [-> Hgone]; [lia|].
    split; [reflexivity | exact Hgone].
  - intros [-> ->]. destruct Hbig as [-> _]; [lia|]. reflexivity.
Qed.


(** ** The search loop, [find_and_download_candidates] *)

Lemma candidate_filename_shape cheese_type b64_data :
  let file_hash := String.substring 0 10 (md5_hexdigest b64_data) in
  candidate_filename cheese_type b64_data
  = replace_char " " "_" cheese_type +:+ "_" +:+ file_hash +:+ ".jpg"
  /\ String.length file_hash = 10
  /\ forallb is_hex_digit (String.list_ascii_of_string file_hash) = true.
Proof.
  intros file_hash. split; [reflexivity|].
  apply digest_prefix. lia.
Qed.

Lemma process_payload_named self today cheese_type b64_data st :
  cheese_type ∈ cheese_types self ->
  Forall (named_by self) (candidates_found st) ->
  Forall (named_by self)
    (candidates_found (process_payload self today cheese_type b64_data st)).
Proof.
  intros Hin Hall. unfold process_payload.
  destruct (save_base64_image _ _ _ _) as [fs [path|]] eqn:Hsave; simpl;
    [|assumption].
  apply Forall_app. split; [assumption|].
  apply Forall_singleton. exists cheese_type, b64_data. simpl.
  repeat split; [assumption|]. now apply save_returns_joined in Hsave.
Qed.

Lemma payload_loop_named self today cheese_type max_total_images image_data_list st :
  cheese_type ∈ cheese_types self ->
  Forall (named_by self) (candidates_found st) ->
  Forall (named_by self)
    (candidates_found
       (payload_loop self today cheese_type max_total_images image_data_list st)).
Proof.
  intros Hin. revert st.
  induction image_data_list as [|b64_data rest IH]; intros st Hall; simpl;
    [assumption|].
  destruct (reached _ _); [assumption|].
  apply IH. now apply process_payload_named.
Qed.

Lemma type_loop_named self web today max_total_images types st :
  types ⊆ cheese_types self ->
  Forall (named_by self) (candidates_found st) ->
  Forall (named_by self)
    (candidates_found (fst (type_loop self web today max_total_images types st))).
Proof.
  revert st. induction types as [|cheese_type rest IH]; intros st Hsub Hall; simpl;
    [assumption|].
  destruct (reached _ st); [assumption|].
  destruct (scrape_image_data _ _ _) as [image_data_list|e]; [|assumption].
  assert (Hnamed : Forall (named_by self)
            (candidates_found
               (payload_loop self today cheese_type max_total_images
                  image_data_list st))).
  { apply payload_loop_named; [|assumption]. apply Hsub. left. }
  destruct (reached _ _); [assumption|].
  apply IH; [|assumption]. intros t Ht. apply Hsub. now right.
Qed.

(** C8, as the code has it. The file name of a payload is the category with
    each space turned into an underscore, then an underscore, the first ten
    hexadecimal characters of the digest of the payload and [.jpg]; every
    candidate a search returns is named so, after one of the scraper's
    categories, and lies under that name in the output directory; a payload
    the validator rejects is passed over and the loop goes on with the rest. *)
Theorem candidate_filename_from_category_and_digest :
  (forall cheese_type b64_data,
     let file_hash := String.substring 0 10 (md5_hexdigest b64_data) in
     candidate_filename cheese_type b64_data
     = replace_char " " "_" cheese_type +:+ "_" +:+ file_hash +:+ ".jpg"
     /\ String.length file_hash = 10
     /\ forallb is_hex_digit (String.list_ascii_of_string file_hash) = true)
  /\ (forall self web today max_total_images fs candidates,
        snd (find_and_download_candidates self web today max_total_images fs)
        = Ok candidates ->
        Forall (named_by self) candidates)
  /\ (forall self today cheese_type max_total_images b64_data rest st,
        reached max_total_images st = false ->
        snd (save_base64_image self b64_data
               (candidate_filename cheese_type b64_data) (disk_images st)) = None ->
        payload_loop self today cheese_type max_total_images (b64_data :: rest) st
        = payload_loop self today cheese_type max_total_images rest
            {| candidates_found := candidates_found st;
               processed_count := processed_count st + 1;
               disk_images :=
                 fst (save_base64_image self b64_data
                        (candidate_filename cheese_type b64_data) (disk_images st)) |}).
Proof.
  split; [apply candidate_filename_shape|]. split.
  - intros self web today max_total_images fs candidates.
    unfold find_and_download_candidates.
    pose proof (type_loop_named self web today max_total_images (cheese_types self)
                  {| candidates_found := []; processed_count := 0;
                     disk_images := fs |}) as Hnamed.
    destruct (type_loop _ _ _ _ _ _) as [st [[]|e]]; simpl; [|discriminate].
    intros [= <-]. apply Hnamed; [set_solver | constructor].
  - intros self today cheese_type max_total_images b64_data rest st Hgo Hrej.
    simpl. rewrite Hgo. f_equal. unfold process_payload.
    destruct (save_base64_image _ _ _ _) as [fs saved]. simpl in *.
    now subst saved.
Qed.

End WithPlatform.

(** The category ['semi soft'] has a space: the file is not named
    ['semi soft_...']. *)
Lemma candidate_filename_keeps_category_counterexample :
  let b64_data := "data:image/jpeg;base64,bGFyZ2U=" in
  "semi soft" ∈ cheese_types new_CheeseScraper
  /\ candidate_filename (P := demo.platform) "semi soft" b64_data
     <> "semi soft" +:+ "_"
        +:+ String.substring 0 10 (md5_hexdigest (Platform := demo.platform) b64_data)
        +:+ ".jpg"
  /\ candidate_filename (P := demo.platform) "semi soft" b64_data
     = "semi_soft_571fd9a957.jpg".
Proof.
  split; [set_solver|]. split; [|reflexivity].
  vm_compute. discriminate.
Qed.

End scraper_properties.

(** ** Dicts *)

Lemma dict_get_set_eq k v d : dict_get k (dict_set k v d) = Some v.
Proof.
  induction d as [|[k' v'] d IH]; simpl.
  - now rewrite String.eqb_refl.
  - destruct (String.eqb k' k) eqn:E; simpl.
    + now rewrite String.eqb_refl.
    + now rewrite E.
Qed.

Lemma dict_get_set_ne k k' v d :
  k <> k' -> dict_get k' (dict_set k v d) = dict_get k' d.
Proof.
  intros Hne. induction d as [|[k0 v0] d IH]; simpl.
  - now apply String.eqb_neq in Hne as ->.
  - destruct (String.eqb k0 k) eqn:E; simpl.
    + apply String.eqb_eq in E as ->.
      now apply String.eqb_neq in Hne as ->.
    + now rewrite IH.
Qed.

Lemma getitem_obj k d v : dict_get k d = Some v -> getitem (JObj d) k = Ok v.
Proof. intros H. simpl. now rewrite H. Qed.

Lemma getitem_inv st k v :
  getitem st k = Ok v -> exists d, st = JObj d /\ dict_get k d = Some v.
Proof.
  destruct st as [| | | | |d]; try discriminate. simpl.
  destruct (dict_get k d) as [v'|] eqn:E; [|discriminate].
  intros [= <-]. now exists d.
Qed.

Lemma setitem_inv st k v st' :
  setitem st k v = Ok st' -> exists d, st = JObj d /\ st' = JObj (dict_set k v d).
Proof.
  destruct st as [| | | | |d]; try discriminate. intros [= <-]. now exists d.
Qed.

Lemma is_str_true k j : is_str k j = true <-> j = JStr k.
Proof.
  destruct j as [| | |s| |]; simpl; try (split; [discriminate | intros [=]]).
  rewrite String.eqb_eq. split; [now intros -> | now intros [= ->]].
Qed.

Lemma in_paths_elem uri paths :
  cheese_agent.in_paths uri paths = true <-> JStr uri ∈ paths.
Proof.
  unfold cheese_agent.in_paths. rewrite existsb_exists. split.
  - intros (j & Hin & Hj). apply is_str_true in Hj as ->.
    now apply list_elem_of_In.
  - intros Hin. exists (JStr uri). split; [now apply list_elem_of_In|].
    now apply is_str_true.
Qed.

(** ** The agent *)

Module agent_properties.
Import cheese_scraper cheese_agent spec.
Section WithPlatform.
Context {P : Platform}.

(** *** Loading *)

Lemma fill_defaults_obj defaults d st' :
  fill_defaults (JObj d) defaults = Ok st' ->
  exists d',
    st' = JObj d'
    /\ forall k,
         dict_get k d' =
           match dict_get k d with
           | Some v => Some v
           | None => dict_get k defaults
           end.
Proof.
  revert d. induction defaults as [|[key value] rest IH]; intros d; simpl.
  - intros [= <-]. exists d. split; [reflexivity|].
    intros k. now destruct (dict_get k d).
  - destruct (dict_get key d) as [v|] eqn:Hkey.
    + rewrite bool_decide_eq_true_2 by eauto. simpl.
      intros H. apply IH in H as (d' & -> & Hd'). exists d'. split; [reflexivity|].
      intros k. rewrite Hd'. destruct (dict_get k d) as [v'|] eqn:Hk; [reflexivity|].
      destruct (String.eqb key k) eqn:E; [|reflexivity].
      apply String.eqb_eq in E as ->. congruence.
    + rewrite bool_decide_eq_false_2 by (intros [? ?]; discriminate). simpl.
      intros H. apply IH in H as (d' & -> & Hd'). exists d'. split; [reflexivity|].
      intros k. rewrite Hd'.
      destruct (String.eqb key k) eqn:E.
      * apply String.eqb_eq in E as <-. now rewrite dict_get_set_eq, Hkey.
      * apply String.eqb_neq in E. rewrite dict_get_set_ne by assumption.
        reflexivity.
Qed.

(** On a value that is no dict the loop either raises or, when every key
    is found in it, leaves it as it is. *)
Lemma fill_defaults_other defaults st st' :
  (forall d, st <> JObj d) ->
  fill_defaults st defaults = Ok st' -> st' = st.
Proof.
  intros Hno. induction defaults as [|[key value] rest IH]; simpl.
  - now intros [= <-].
  - destruct (contains st key) as [present|e]; simpl; [|discriminate].
    destruct present; simpl; [exact IH|].
    destruct st; simpl; try discriminate. now destruct (Hno fields).
Qed.

Lemma load_agent_state_unique w :
  disk_unique (state_file w) -> unique_paths (load_agent_state w).
Proof.
  assert (Hdef : unique_paths (JObj default_state)).
  { intros items [= <-]. constructor. }
  unfold load_agent_state, disk_unique.
  destruct (state_file w) as [| |st]; [intros _; exact Hdef ..|].
  intros Hst. destruct (fill_defaults st default_state) as [st'|e] eqn:Hfill;
    [|exact Hdef].
  destruct st as [| | | | |d];
    try (apply fill_defaults_other in Hfill as ->; [assumption | discriminate]).
  apply fill_defaults_obj in Hfill as (d' & -> & Hd').
  intros items Hitems. apply getitem_inv in Hitems as (d0 & [= <-] & Hget).
  rewrite Hd' in Hget.
  destruct (dict_get "pending_uploads" d) as [v|] eqn:Hv.
  - apply (Hst items). simpl. rewrite Hv. congruence.
  - simpl in Hget. injection Hget as <-. constructor.
Qed.

(** *** Merging *)

Ltac py_unfold :=
  unfold add_total, init_daily, add_daily, append_pending,
    bind, lift, self_state, set_state, ret.

Lemma append_pending_arr item st items :
  getitem st "pending_uploads" = Ok (JArr items) ->
  exists st',
    append_pending item st = (st', Ok tt)
    /\ getitem st' "pending_uploads" = Ok (JArr (items ++ [item]))
    /\ forall k, k <> "pending_uploads" -> getitem st' k = getitem st k.
Proof.
  intros Hget. pose proof Hget as (d & -> & Hd)%getitem_inv.
  py_unfold. rewrite Hget. simpl.
  eexists. split; [reflexivity|]. split.
  - apply getitem_obj, dict_get_set_eq.
  - intros k Hk. simpl. now rewrite dict_get_set_ne by congruence.
Qed.

Lemma append_pending_other item st :
  (forall items, getitem st "pending_uploads" <> Ok (JArr items)) ->
  exists e, append_pending item st = (st, Raise e).
Proof.
  intros Hno. py_unfold.
  destruct (getitem st "pending_uploads") as [pending|e] eqn:Hget; [|now exists e].
  destruct pending; simpl; try (now eexists).
  now destruct (Hno items).
Qed.

(** On a list the merge cannot fail: it appends the fresh entries, in order,
    and counts them. *)
Lemma merge_arr pending_list existing_paths n st items :
  getitem st "pending_uploads" = Ok (JArr items) ->
  exists st',
    merge pending_list existing_paths n st
    = (st', Ok (n + Z.of_nat (length (fresh pending_list existing_paths)))%Z)
    /\ getitem st' "pending_uploads"
       = Ok (JArr (items ++ map entry_json (fresh pending_list existing_paths)))
    /\ forall k, k <> "pending_uploads" -> getitem st' k = getitem st k.
Proof.
  revert existing_paths n st items.
  induction pending_list as [|pending_item rest IH];
    intros existing_paths n st items Hget; simpl.
  - exists st. unfold ret. rewrite Z.add_0_r, app_nil_r. auto.
  - destruct (in_paths (entry_file_path pending_item) existing_paths); simpl.
    + now apply IH.
    + destruct (append_pending_arr (entry_json pending_item) st items Hget)
        as (st1 & Happ & Hget1 & Hframe1).
      destruct (IH (JStr (entry_file_path pending_item) :: existing_paths)
                  (n + 1)%Z st1 _ Hget1) as (st' & Hmerge & Hget' & Hframe').
      exists st'. unfold bind at 1. rewrite Happ, Hmerge. split; [|split].
      * do 2 f_equal. lia.
      * rewrite Hget'. now rewrite <- app_assoc.
      * intros k Hk. now rewrite Hframe', Hframe1.
Qed.

(** On anything else the state stays as it is. *)
Lemma merge_other pending_list existing_paths n st :
  (forall items, getitem st "pending_uploads" <> Ok (JArr items)) ->
  exists r, merge pending_list existing_paths n st = (st, r).
Proof.
  intros Hno. revert existing_paths n.
  induction pending_list as [|pending_item rest IH]; intros existing_paths n; simpl.
  - now eexists.
  - destruct (in_paths (entry_file_path pending_item) existing_paths); simpl.
    + apply IH.
    + destruct (append_pending_other (entry_json pending_item) st Hno) as [e He].
      exists (Raise e). unfold bind. now rewrite He.
Qed.

(** *** The counters *)

Lemma add_total_frame n st st' r :
  add_total n st = (st', r) ->
  forall k, k <> "total_images_scraped" -> getitem st' k = getitem st k.
Proof.
  py_unfold.
  destruct (getitem st "total_images_scraped") as [v|e] eqn:Hget;
    [|now intros [= <- _]].
  destruct (add_int v n) as [v'|e]; [|now intros [= <- _]].
  apply getitem_inv in Hget as (d & -> & _). simpl.
  intros [= <- _] k Hk. simpl. now rewrite dict_get_set_ne.
Qed.

Lemma add_total_ok n st st' :
  add_total n st = (st', Ok tt) ->
  exists v t,
    getitem st "total_images_scraped" = Ok v
    /\ as_int v = Some t
    /\ getitem st' "total_images_scraped" = Ok (JInt (t + n)).
Proof.
  py_unfold.
  destruct (getitem st "total_images_scraped") as [v|e] eqn:Hget; [|discriminate].
  pose proof Hget as (d & -> & _)%getitem_inv.
  destruct v as [|b|z| | |]; simpl; try discriminate; intros [= <-].
  - exists (JBool b), (Z.b2z b). split; [reflexivity|]. split; [reflexivity|].
    apply getitem_obj, dict_get_set_eq.
  - exists (JInt z), z. split; [reflexivity|]. split; [reflexivity|].
    apply getitem_obj, dict_get_set_eq.
Qed.

Lemma init_daily_frame today_str st st' r :
  init_daily today_str st = (st', r) ->
  forall k, k <> "daily_stats" -> getitem st' k = getitem st k.
Proof.
  py_unfold.
  destruct (getitem st "daily_stats") as [daily|e] eqn:Hget; [|now intros [= <- _]].
  destruct (contains daily today_str) as [present|e]; [|now intros [= <- _]].
  destruct present; simpl; [now intros [= <- _]|].
  destruct (setitem daily today_str _) as [daily'|e]; [|now intros [= <- _]].
  apply getitem_inv in Hget as (d & -> & _). simpl.
  intros [= <- _] k Hk. simpl. now rewrite dict_get_set_ne.
Qed.

Lemma add_daily_frame today_str n st st' r :
  add_daily today_str n st = (st', r) ->
  forall k, k <> "daily_stats" -> getitem st' k = getitem st k.
Proof.
  py_unfold.
  destruct (getitem st "daily_stats") as [daily|e] eqn:Hget; [|now intros [= <- _]].
  destruct (getitem daily today_str) as [bucket|e]; [|now intros [= <- _]].
  destruct (getitem bucket "scraped") as [v|e]; [|now intros [= <- _]].
  destruct (add_int v n) as [v'|e]; [|now intros [= <- _]].
  destruct (setitem bucket "scraped" v') as [bucket'|e]; [|now intros [= <- _]].
  destruct (setitem daily today_str bucket') as [daily'|e]; [|now intros [= <- _]].
  apply getitem_inv in Hget as (d & -> & _). simpl.
  intros [= <- _] k Hk. simpl. now rewrite dict_get_set_ne.
Qed.

(** Today's bucket after the two statements on [daily_stats]. *)
Lemma daily_ok today_str n st st1 st' :
  init_daily today_str st = (st1, Ok tt) ->
  add_daily today_str n st1 = (st', Ok tt) ->
  exists d d',
    getitem st "daily_stats" = Ok (JObj d)
    /\ getitem st' "daily_stats" = Ok (JObj d')
    /\ match dict_get today_str d with
       | None => dict_get today_str d' = Some (JObj [("scraped", JInt n)])
       | Some bucket =>
           exists fields v t,
             bucket = JObj fields
             /\ dict_get "scraped" fields = Some v
             /\ as_int v = Some t
             /\ dict_get today_str d'
                = Some (JObj (dict_set "scraped" (JInt (t + n)) fields))
       end.
Proof.
  assert (Hadd : forall d0 d,
            getitem (JObj d0) "daily_stats" = Ok (JObj d) ->
            add_daily today_str n (JObj d0) = (st', Ok tt) ->
            exists d' fields v t,
              getitem st' "daily_stats" = Ok (JObj d')
              /\ dict_get today_str d = Some (JObj fields)
              /\ dict_get "scraped" fields = Some v
              /\ as_int v = Some t
              /\ dict_get today_str d'
                 = Some (JObj (dict_set "scraped" (JInt (t + n)) fields))).
  { intros d0 d Hget. py_unfold. rewrite Hget.
    destruct (getitem (JObj d) today_str) as [bucket|e] eqn:Hb; [|discriminate].
    destruct (getitem bucket "scraped") as [v|e] eqn:Hv; [|discriminate].
    apply getitem_inv in Hb as (? & [= <-] & Hb).
    apply getitem_inv in Hv as (fields & -> & Hv).
    destruct v as [|b|z| | |]; simpl; try discriminate; intros [= <-].
    - exists (dict_set today_str
                (JObj (dict_set "scraped" (JInt (Z.b2z b + n)) fields)) d),
        fields, (JBool b), (Z.b2z b).
      split; [apply getitem_obj, dict_get_set_eq|].
      repeat split; try assumption. apply dict_get_set_eq.
    - exists (dict_set today_str (JObj (dict_set "scraped" (JInt (z + n)) fields)) d),
        fields, (JInt z), z.
      split; [apply getitem_obj, dict_get_set_eq|].
      repeat split; try assumption. apply dict_get_set_eq. }
  unfold init_daily at 1. unfold bind, lift, self_state, set_state, ret.
  destruct (getitem st "daily_stats") as [daily|e] eqn:Hget; [|discriminate].
  pose proof Hget as (d0 & -> & Hd0)%getitem_inv.
  destruct (contains daily today_str) as [present|e] eqn:Hin; [|discriminate].
  destruct present; simpl.
  - intros [= <-] Hrun.
    destruct daily as [| | |s|l|d].
    1-3: discriminate.
    1-2: revert Hrun; py_unfold; rewrite Hget; discriminate.
    destruct (Hadd d0 d Hget Hrun) as (d' & fields & v & t & Hg & Hb & Hv & Ht & Hd').
    exists d, d'. split; [reflexivity|]. split; [assumption|].
    rewrite Hb. now exists fields, v, t.
  - destruct daily as [| | |s|l|d]; try discriminate. simpl.
    intros [= <-] Hrun.
    injection Hin as Hin. apply bool_decide_eq_false_1 in Hin.
    assert (Hnone : dict_get today_str d = None).
    { destruct (dict_get today_str d); [destruct Hin; eauto | reflexivity]. }
    edestruct (Hadd _ _ (getitem_obj _ _ _ (dict_get_set_eq "daily_stats" _ d0)) Hrun)
      as (d' & fields & v & t & Hg & Hb & Hv & Ht & Hd').
    rewrite dict_get_set_eq in Hb. injection Hb as <-.
    simpl in Hv. injection Hv as <-. injection Ht as <-.
    exists d, d'. split; [reflexivity|]. split; [assumption|].
    rewrite Hnone. exact Hd'.
Qed.

(** *** The [try] block *)

Lemma collect_paths_entry_paths items paths :
  collect_paths items = Ok paths -> paths = entry_paths items.
Proof.
  revert paths. induction items as [|p rest IH]; intros paths; simpl.
  - now intros [= <-].
  - unfold entry_paths; simpl.
    destruct (getitem p "file_path") as [v|e]; simpl; [|discriminate].
    destruct (hashable v); [|discriminate].
    destruct (collect_paths rest) as [paths'|e]; simpl; [|discriminate].
    intros [= <-]. f_equal. now apply IH.
Qed.

Lemma try_block_steps today_str fs candidates st :
  candidates <> [] ->
  try_block today_str fs (Ok candidates) st =
    match prepare fs candidates with
    | Raise e => (st, Raise e)
    | Ok pending_list =>
        match existing_paths_of st with
        | Raise e => (st, Raise e)
        | Ok existing_paths =>
            match merge pending_list existing_paths 0 st with
            | (st1, Raise e) => (st1, Raise e)
            | (st1, Ok n) =>
                match add_total n st1 with
                | (st2, Raise e) => (st2, Raise e)
                | (st2, Ok _) =>
                    match init_daily today_str st2 with
                    | (st3, Raise e) => (st3, Raise e)
                    | (st3, Ok _) =>
                        match add_daily today_str n st3 with
                        | (st4, Raise e) => (st4, Raise e)
                        | (st4, Ok _) => (st4, Ok (Some n))
                        end
                    end
                end
            end
        end
    end.
Proof.
  intros Hne. unfold try_block.
  destruct candidates as [|cand rest]; [contradiction|].
  unfold bind at 1. unfold lift at 1.
  unfold bind at 1. unfold lift at 1.
  destruct (prepare fs (cand :: rest)) as [pending_list|e]; [|reflexivity].
  unfold bind at 1. unfold self_state at 1.
  unfold bind at 1. unfold lift at 1.
  destruct (existing_paths_of st) as [existing_paths|e]; [|reflexivity].
  unfold bind at 1.
  destruct (merge pending_list existing_paths 0 st) as [st1 [n|e]]; [|reflexivity].
  unfold bind at 1.
  destruct (add_total n st1) as [st2 [[]|e]]; [|reflexivity].
  unfold bind at 1.
  destruct (init_daily today_str st2) as [st3 [[]|e]]; [|reflexivity].
  unfold bind at 1.
  destruct (add_daily today_str n st3) as [st4 [[]|e]]; reflexivity.
Qed.

(** The state after a [try] block that went through the merge, step by
    step. *)
Lemma try_block_through today_str fs found st st' r items :
  try_block today_str fs found st = (st', r) ->
  getitem st "pending_uploads" = Ok (JArr items) ->
  (st' = st /\ forall n, r <> Ok (Some n))
  \/ exists candidates pending_list st1,
       let added := fresh pending_list (entry_paths items) in
       let n := Z.of_nat (length added) in
       found = Ok candidates
       /\ candidates <> []
       /\ prepare fs candidates = Ok pending_list
       /\ merge pending_list (entry_paths items) 0 st = (st1, Ok n)
       /\ getitem st1 "pending_uploads" = Ok (JArr (items ++ map entry_json added))
       /\ (forall k, k <> "pending_uploads" -> getitem st1 k = getitem st k)
       /\ match add_total n st1 with
          | (st2, Raise e) => st' = st2 /\ r = Raise e
          | (st2, Ok _) =>
              match init_daily today_str st2 with
              | (st3, Raise e) => st' = st3 /\ r = Raise e
              | (st3, Ok _) =>
                  match add_daily today_str n st3 with
                  | (st4, Raise e) => st' = st4 /\ r = Raise e
                  | (st4, Ok _) => st' = st4 /\ r = Ok (Some n)
                  end
              end
          end.
Proof.
  intros Hrun Hget.
  assert (Hearly : forall r0, (st, r0) = (st', r) ->
            (forall n, r0 <> Ok (Some n)) ->
            st' = st /\ forall n, r <> Ok (Some n)).
  { intros r0 [= <- <-] Hr0. now split. }
  destruct found as [candidates|e]; [|left; now apply (Hearly _ Hrun)].
  destruct candidates as [|cand rest] eqn:Hc; [left; now apply (Hearly _ Hrun)|].
  rewrite <- Hc in *. assert (Hne : candidates <> []) by now rewrite Hc.
  rewrite (try_block_steps _ _ _ _ Hne) in Hrun.
  destruct (prepare fs candidates) as [pending_list|e] eqn:Hprep;
    [|left; now apply (Hearly _ Hrun)].
  unfold existing_paths_of in Hrun. rewrite Hget in Hrun. simpl in Hrun.
  destruct (collect_paths items) as [paths|e] eqn:Hpaths;
    [|left; now apply (Hearly _ Hrun)].
  apply collect_paths_entry_paths in Hpaths as ->.
  destruct (merge_arr pending_list (entry_paths items) 0 st items Hget)
    as (st1 & Hmerge & Hget1 & Hframe1).
  rewrite Hmerge in Hrun. simpl in Hmerge.
  right. exists candidates, pending_list, st1. simpl.
  repeat (split; [assumption || reflexivity|]).
  destruct (add_total _ st1) as [st2 [[]|e]]; [|now injection Hrun as <- <-].
  destruct (init_daily today_str st2) as [st3 [[]|e]]; [|now injection Hrun as <- <-].
  destruct (add_daily today_str _ st3) as [st4 [[]|e]]; now injection Hrun as <- <-.
Qed.

Lemma try_block_pending today_str fs found st st' r items :
  try_block today_str fs found st = (st', r) ->
  getitem st "pending_uploads" = Ok (JArr items) ->
  exists added,
    getitem st' "pending_uploads" = Ok (JArr (items ++ map entry_json added))
    /\ (added = []
        \/ exists candidates pending_list,
             found = Ok candidates
             /\ prepare fs candidates = Ok pending_list
             /\ added = fresh pending_list (entry_paths items)).
Proof.
  intros Hrun Hget.
  destruct (try_block_through _ _ _ _ _ _ _ Hrun Hget)
    as [[-> _] | (candidates & pending_list & st1 & H)].
  { exists []. rewrite app_nil_r. auto. }
  simpl in H. destruct H as (-> & Hne & Hprep & Hmerge & Hget1 & Hframe1 & Hrest).
  exists (fresh pending_list (entry_paths items)).
  split; [|right; now exists candidates, pending_list].
  rewrite <- Hget1.
  destruct (add_total _ st1) as [st2 [[]|e]] eqn:H2.
  2:{ destruct Hrest as [-> _]. now apply (add_total_frame _ _ _ _ H2). }
  rewrite <- (add_total_frame _ _ _ _ H2 "pending_uploads") by discriminate.
  destruct (init_daily today_str st2) as [st3 [[]|e]] eqn:H3.
  2:{ destruct Hrest as [-> _]. now apply (init_daily_frame _ _ _ _ H3). }
  rewrite <- (init_daily_frame _ _ _ _ H3 "pending_uploads") by discriminate.
  destruct (add_daily today_str _ st3) as [st4 [[]|e]] eqn:H4;
    destruct Hrest as [-> _]; now apply (add_daily_frame _ _ _ _ _ H4).
Qed.

Lemma try_block_pending_other today_str fs found st st' r :
  try_block today_str fs found st = (st', r) ->
  (forall items, getitem st "pending_uploads" <> Ok (JArr items)) ->
  getitem st' "pending_uploads" = getitem st "pending_uploads".
Proof.
  intros Hrun Hno.
  destruct found as [candidates|e]; [|now injection Hrun as <- _].
  destruct candidates as [|cand rest] eqn:Hc; [now injection Hrun as <- _|].
  rewrite <- Hc in *. assert (Hne : candidates <> []) by now rewrite Hc.
  rewrite (try_block_steps _ _ _ _ Hne) in Hrun.
  destruct (prepare fs candidates) as [pending_list|e]; [|now injection Hrun as <- _].
  destruct (existing_paths_of st) as [paths|e]; [|now injection Hrun as <- _].
  destruct (merge_other pending_list paths 0 st Hno) as [r1 Hmerge].
  rewrite Hmerge in Hrun.
  destruct r1 as [n|e]; [|now injection Hrun as <- _].
  destruct (add_total n st) as [st2 [[]|e]] eqn:H2.
  2:{ injection Hrun as <- _. now apply (add_total_frame _ _ _ _ H2). }
  rewrite <- (add_total_frame _ _ _ _ H2 "pending_uploads") by discriminate.
  destruct (init_daily today_str st2) as [st3 [[]|e]] eqn:H3.
  2:{ injection Hrun as <- _. now apply (init_daily_frame _ _ _ _ H3). }
  rewrite <- (init_daily_frame _ _ _ _ H3 "pending_uploads") by discriminate.
  destruct (add_daily today_str n st3) as [st4 [[]|e]] eqn:H4;
    injection Hrun as <- _; now apply (add_daily_frame _ _ _ _ _ H4).
Qed.

(** *** The fresh entries *)

Lemma entry_paths_app items items' :
  entry_paths (items ++ items') = entry_paths items ++ entry_paths items'.
Proof. apply omap_app. Qed.

Lemma entry_paths_entries (entries : list QueueEntry) :
  entry_paths (map entry_json entries) = map entry_uri entries.
Proof.
  induction entries as [|e rest IH]; [reflexivity|].
  change (entry_paths (map entry_json (e :: rest)))
    with (entry_uri e :: entry_paths (map entry_json rest)).
  now rewrite IH.
Qed.

Lemma fresh_sublist pending_list paths : sublist (fresh pending_list paths) pending_list.
Proof.
  revert paths. induction pending_list as [|e rest IH]; intros paths; simpl.
  - constructor.
  - destruct (in_paths _ _); [apply sublist_cons | apply sublist_skip]; apply IH.
Qed.

Lemma fresh_apart pending_list paths :
  NoDup (map entry_uri (fresh pending_list paths))
  /\ forall e, e ∈ fresh pending_list paths -> entry_uri e ∉ paths.
Proof.
  revert paths. induction pending_list as [|e rest IH]; intros paths; simpl.
  - split; [constructor | intros e He; inversion He].
  - destruct (in_paths (entry_file_path e) paths) eqn:Hin; [apply IH|].
    destruct (IH (JStr (entry_file_path e) :: paths)) as [Hnd Hout].
    assert (Hnew : entry_uri e ∉ paths).
    { intros Hold. apply in_paths_elem in Hold. congruence. }
    split.
    + simpl. constructor; [|assumption].
      intros (e' & Heq & He')%list_elem_of_fmap.
      apply (Hout e' He'). rewrite <- Heq. left.
    + intros e' [->|He']%elem_of_cons; [assumption|].
      intros Hold. apply (Hout e' He'). now right.
Qed.

Lemma merge_keeps_unique items pending_list :
  NoDup (entry_paths items) ->
  NoDup (entry_paths
           (items ++ map entry_json (fresh pending_list (entry_paths items)))).
Proof.
  intros Hnd. rewrite entry_paths_app, entry_paths_entries.
  destruct (fresh_apart pending_list (entry_paths items)) as [Hfresh Hout].
  apply NoDup_app. split; [assumption|]. split; [|assumption].
  intros v Hv (e & -> & He)%list_elem_of_fmap. now apply (Hout e He).
Qed.

Lemma try_block_unique today_str fs found st st' r :
  try_block today_str fs found st = (st', r) ->
  unique_paths st -> unique_paths st'.
Proof.
  intros Hrun Hst items' Hget'.
  destruct (getitem st "pending_uploads") as [pending|e] eqn:Hget.
  - destruct pending as [| | | |items|];
      try (rewrite (try_block_pending_other _ _ _ _ _ _ Hrun) in Hget'
             by (rewrite Hget; discriminate);
           apply Hst; congruence).
    destruct (try_block_pending _ _ _ _ _ _ _ Hrun Hget) as (added & Hget1 & Hadded).
    rewrite Hget1 in Hget'. injection Hget' as <-.
    destruct Hadded as [-> | (candidates & pending_list & _ & _ & ->)].
    + rewrite app_nil_r. now apply Hst.
    + apply merge_keeps_unique. now apply Hst.
  - rewrite (try_block_pending_other _ _ _ _ _ _ Hrun) in Hget'
      by (rewrite Hget; discriminate).
    congruence.
Qed.

Lemma prepare_derived fs candidates pending_list :
  prepare fs candidates = Ok pending_list ->
  length pending_list = length candidates
  /\ Forall (fun e => exists cand,
                cand ∈ candidates /\ derived_from fs cand (entry_json e))
       pending_list.
Proof.
  revert pending_list. induction candidates as [|cand rest IH]; intros pending_list; simpl.
  - intros [= <-]. split; [reflexivity | constructor].
  - destruct (files fs !! cand_file_path cand) as [bytes|] eqn:Hfile; [|discriminate].
    destruct (prepare fs rest) as [tail|e]; [|discriminate]. simpl.
    intros [= <-]. destruct (IH tail eq_refl) as [Hlen Hall]. split.
    + simpl. now rewrite Hlen.
    + constructor.
      * exists cand. split; [left|]. now exists bytes.
      * eapply Forall_impl; [exact Hall|].
        intros e (c & Hc & Hd). exists c. split; [now right | assumption].
Qed.

(** *** Running *)

Lemma run_with_scraper find today_str self w sc :
  scraper self = Some sc ->
  let found := find sc (daily_target self) (images w) in
  let st' := fst (try_block today_str (fst found) (snd found) (state self)) in
  let self' :=
    {| state := st'; scraper := scraper self; daily_target := daily_target self |} in
  run find today_str self w
  = (self',
     save_agent_state self'
       {| images := fst found;
          state_file := state_file w;
          state_file_writable := state_file_writable w |}).
Proof.
  intros Hsc. unfold run. rewrite Hsc. simpl.
  destruct (find sc (daily_target self) (images w)) as [fs found]. simpl.
  now destruct (try_block today_str fs found (state self)) as [st r].
Qed.

Lemma run_keeps_unique find today_str self w :
  unique_paths (state self) ->
  disk_unique (state_file w) ->
  unique_paths (state (fst (run find today_str self w)))
  /\ disk_unique (state_file (snd (run find today_str self w))).
Proof.
  intros Hst Hdisk.
  destruct (scraper self) as [sc|] eqn:Hsc.
  - rewrite (run_with_scraper _ _ _ _ _ Hsc). simpl.
    destruct (find sc (daily_target self) (images w)) as [fs found]. simpl.
    destruct (try_block today_str fs found (state self)) as [st' r] eqn:Hrun. simpl.
    assert (Hst' : unique_paths st') by now apply (try_block_unique _ _ _ _ _ _ Hrun).
    split; [assumption|].
    unfold save_agent_state; simpl. now destruct (state_file_writable w).
  - unfold run. rewrite Hsc. now split.
Qed.

Lemma perform_keeps_unique a sys :
  unique_paths (state (fst sys)) /\ disk_unique (state_file (snd sys)) ->
  unique_paths (state (fst (perform a sys)))
  /\ disk_unique (state_file (snd (perform a sys))).
Proof.
  intros [Hst Hdisk]. destruct a as [scraper_ok|find today_str|fs writable]; simpl.
  - split; [|assumption]. now apply load_agent_state_unique.
  - now apply run_keeps_unique.
  - now split.
Qed.

(** A [try] block that ends normally has appended to [pending_uploads]: it
    found a list there. *)
Lemma try_block_done_list today_str fs candidates st st' n :
  try_block today_str fs (Ok candidates) st = (st', Ok (Some n)) ->
  exists items, getitem st "pending_uploads" = Ok (JArr items).
Proof.
  intros Hrun.
  destruct (getitem st "pending_uploads") as [pending|e] eqn:Hget.
  2:{ exfalso. destruct candidates as [|c cs]; [discriminate|].
      rewrite try_block_steps in Hrun by discriminate.
      destruct (prepare fs (c :: cs)); [|discriminate].
      unfold existing_paths_of in Hrun. rewrite Hget in Hrun. discriminate. }
  destruct pending as [| | | |items|]; try (now eexists); exfalso.
  all: destruct candidates as [|c cs]; [discriminate|].
  all: rewrite try_block_steps in Hrun by discriminate.
  all: destruct (prepare fs (c :: cs)) as [[|e1 pl]|] eqn:Hprep; [| |discriminate].
  all: try (apply prepare_derived in Hprep as [Hlen _]; discriminate).
  all: unfold existing_paths_of in Hrun; rewrite Hget in Hrun; simpl in Hrun.
  all: try discriminate.
  - destruct (collect_paths _) as [paths|] eqn:Hpaths; [|discriminate].
    destruct s as [|ch s]; simpl in Hpaths; [|discriminate].
    injection Hpaths as <-. simpl in Hrun.
    destruct (append_pending_other (entry_json e1) st) as [e He].
    { rewrite Hget. discriminate. }
    unfold bind in Hrun at 1. rewrite He in Hrun. discriminate.
  - destruct (collect_paths _) as [paths|] eqn:Hpaths; [|discriminate].
    destruct fields as [|kv fields]; simpl in Hpaths; [|discriminate].
    injection Hpaths as <-. simpl in Hrun.
    destruct (append_pending_other (entry_json e1) st) as [e He].
    { rewrite Hget. discriminate. }
    unfold bind in Hrun at 1. rewrite He in Hrun. discriminate.
Qed.


(** C1. Whatever is done around one state file, in any order and any number
    of times (building an agent, running it with any outcome of the search,
    changes to the image directory or to the permission on the file), a
    state file whose pending list has no two entries with the same
    [file_path] never comes to have two, and neither does the state the
    agent holds in memory. *)
Theorem pending_uploads_stay_unique
    (actions : list action) (scraper_ok : bool) (w : world) :
  disk_unique (state_file w) ->
  let sys := perform_all actions (new_CheeseScrapingAgent scraper_ok w, w) in
  disk_unique (state_file (snd sys)) /\ unique_paths (state (fst sys)).
Proof.
  intros Hdisk.
  assert (Hall : forall sys,
            unique_paths (state (fst sys)) /\ disk_unique (state_file (snd sys)) ->
            unique_paths (state (fst (perform_all actions sys)))
            /\ disk_unique (state_file (snd (perform_all actions sys)))).
  { unfold perform_all. induction actions as [|a rest IH]; intros sys Hsys; simpl.
    - assumption.
    - apply IH. now apply perform_keeps_unique. }
  simpl. apply and_comm, Hall. simpl. split; [|assumption].
  now apply load_agent_state_unique.
Qed.

(** From no state file at all the pending list never has a duplicate. *)
Corollary new_state_file_stays_unique
    (actions : list action) (scraper_ok : bool) (fs : imgfs) (writable : bool) :
  let w := {| images := fs; state_file := Missing; state_file_writable := writable |} in
  disk_unique
    (state_file (snd (perform_all actions (new_CheeseScrapingAgent scraper_ok w, w)))).
Proof.
  intros w.
  assert (Hall : forall sys,
            unique_paths (state (fst sys)) /\ disk_unique (state_file (snd sys)) ->
            disk_unique (state_file (snd (perform_all actions sys)))).
  { unfold perform_all. induction actions as [|a rest IH]; intros sys Hsys; simpl.
    - apply Hsys.
    - apply IH. now apply perform_keeps_unique. }
  apply Hall. simpl. split; [|exact I].
  now apply load_agent_state_unique.
Qed.

(** C2. After a run that gets to the end of its merge, the total is what it
    was plus the number of entries the run appended to the pending list, so
    not less than before; that number is not the number of candidates, of
    which it is at most; today's bucket of the daily statistics is created
    at that number when it was absent and raised by it otherwise. *)
Theorem run_counts_appended_entries
    (find : discovery) (today_str : string) (self : CheeseScrapingAgent)
    (w : world) (sc : CheeseScraper) (fs : imgfs) (candidates : list Candidate)
    (st' : json) (n : Z) :
  scraper self = Some sc ->
  find sc (daily_target self) (images w) = (fs, Ok candidates) ->
  try_block today_str fs (Ok candidates) (state self) = (st', Ok (Some n)) ->
  state (fst (run find today_str self w)) = st'
  /\ exists items added v t d d',
       getitem (state self) "pending_uploads" = Ok (JArr items)
       /\ getitem st' "pending_uploads" = Ok (JArr (items ++ added))
       /\ n = Z.of_nat (length added)
       /\ length added <= length candidates
       /\ getitem (state self) "total_images_scraped" = Ok v
       /\ as_int v = Some t
       /\ getitem st' "total_images_scraped" = Ok (JInt (t + n))
       /\ (t <= t + n)%Z
       /\ getitem (state self) "daily_stats" = Ok (JObj d)
       /\ getitem st' "daily_stats" = Ok (JObj d')
       /\ match dict_get today_str d with
          | None => dict_get today_str d' = Some (JObj [("scraped", JInt n)])
          | Some bucket =>
              exists fields scraped s,
                bucket = JObj fields
                /\ dict_get "scraped" fields = Some scraped
                /\ as_int scraped = Some s
                /\ dict_get today_str d'
                   = Some (JObj (dict_set "scraped" (JInt (s + n)) fields))
          end.
Proof.
  intros Hsc Hfind Hrun. split.
  { rewrite (run_with_scraper _ _ _ _ _ Hsc). simpl. now rewrite Hfind; simpl; rewrite Hrun. }
  destruct (try_block_done_list _ _ _ _ _ _ Hrun) as [items Hget].
  destruct (try_block_through _ _ _ _ _ _ _ Hrun Hget)
    as [[_ Hno] | (candidates' & pending_list & st1 & H)];
    [now destruct (Hno n)|].
  simpl in H. destruct H as (Hc & Hne & Hprep & Hmerge & Hget1 & Hframe1 & Hrest).
  injection Hc as <-.
  set (added := fresh pending_list (entry_paths items)) in *.
  destruct (add_total _ st1) as [st2 [[]|e]] eqn:H2; [|now destruct Hrest].
  destruct (init_daily today_str st2) as [st3 [[]|e]] eqn:H3; [|now destruct Hrest].
  destruct (add_daily today_str _ st3) as [st4 [[]|e]] eqn:H4; [|now destruct Hrest].
  destruct Hrest as [-> [= ->]].
  destruct (add_total_ok _ _ _ H2) as (v & t & Hv & Ht & Hv2).
  destruct (daily_ok _ _ _ _ _ H3 H4) as (d & d' & Hd & Hd' & Hb).
  exists items, (map entry_json added), v, t, d, d'.
  split; [exact Hget|]. split.
  { rewrite (add_daily_frame _ _ _ _ _ H4), (init_daily_frame _ _ _ _ H3),
      (add_total_frame _ _ _ _ H2) by discriminate. exact Hget1. }
  split; [now rewrite length_map|]. split.
  { rewrite length_map. apply prepare_derived in Hprep as [<- _].
    apply sublist_length, fresh_sublist. }
  split; [now rewrite <- Hframe1 by discriminate|]. split; [assumption|]. split.
  { rewrite (add_daily_frame _ _ _ _ _ H4), (init_daily_frame _ _ _ _ H3)
      by discriminate. exact Hv2. }
  split; [lia|]. split.
  { rewrite <- Hframe1, <- (add_total_frame _ _ _ _ H2) by discriminate. exact Hd. }
  split; assumption.
Qed.

(** C3, as the code has it. Without a scraper [run] returns before its [try]
    statement: the agent is as it was, and so is the world, state file
    included; nothing is saved. *)
Theorem run_without_scraper_changes_nothing
    (find : discovery) (today_str : string) (self : CheeseScrapingAgent) (w : world) :
  scraper self = None ->
  run find today_str self w = (self, w).
Proof. intros Hsc. unfold run. now rewrite Hsc. Qed.

(** C4. With a scraper, however the [try] block ends (to its last
    statement, at the early return for no candidates, or with an exception
    from the search or from the merge), the run ends with
    [save_agent_state] on the state the block left in memory, and a state
    file that can be written then holds that state. *)
Theorem run_saves_on_every_exit
    (find : discovery) (today_str : string) (self : CheeseScrapingAgent)
    (w : world) (sc : CheeseScraper) (fs : imgfs)
    (found : result (list Candidate)) (st' : json) (r : result (option Z)) :
  scraper self = Some sc ->
  find sc (daily_target self) (images w) = (fs, found) ->
  try_block today_str fs found (state self) = (st', r) ->
  let after := run find today_str self w in
  state (fst after) = st'
  /\ snd after
     = save_agent_state (fst after)
         {| images := fs;
            state_file := state_file w;
            state_file_writable := state_file_writable w |}
  /\ (state_file_writable w = true -> state_file (snd after) = Stored st')
  /\ (found = Ok [] -> r = Ok None /\ st' = state self)
  /\ (forall e, found = Raise e -> r = Raise e /\ st' = state self).
Proof.
  intros Hsc Hfind Hrun after. unfold after.
  rewrite (run_with_scraper _ _ _ _ _ Hsc). simpl.
  rewrite Hfind. simpl. rewrite Hrun. simpl.
  split; [reflexivity|]. split; [reflexivity|]. split.
  - intros Hw. unfold save_agent_state. simpl. now rewrite Hw.
  - split; [intros -> | intros e ->]; now injection Hrun as <- <-.
Qed.


(** C10. A state file that is there but cannot be opened or parsed gives
    the default state, whatever the file held; a file that holds a dict
    gives that dict with each default key it lacks added, and this is the
    one case in which single keys are defaulted. *)
Theorem load_agent_state_unreadable_gives_default (w : world) :
  state_file w = Corrupt ->
  load_agent_state w
  = JObj [("total_images_scraped", JInt 0);
          ("pending_uploads", JArr []);
          ("daily_stats", JObj [])]
  /\ (forall w' d,
        state_file w' = Stored (JObj d) ->
        exists d',
          load_agent_state w' = JObj d'
          /\ forall k,
               dict_get k d' =
                 match dict_get k d with
                 | Some v => Some v
                 | None => dict_get k default_state
                 end)
  /\ (forall w', state_file w' = Missing -> load_agent_state w' = load_agent_state w).
Proof.
  intros Hw. split; [unfold load_agent_state; now rewrite Hw|]. split.
  - intros w' d Hw'. unfold load_agent_state. rewrite Hw'.
    destruct (fill_defaults (JObj d) default_state) as [st'|e] eqn:Hfill.
    + now apply fill_defaults_obj.
    + exfalso. revert Hfill. clear. unfold default_state. simpl.
      repeat (destruct (bool_decide _); simpl); discriminate.
  - intros w' Hw'. unfold load_agent_state. now rewrite Hw', Hw.
Qed.

End WithPlatform.
End agent_properties.

(** ** The properties on the demo platform *)

Module instances.
Import cheese_scraper cheese_agent spec.

Lemma save_base64_image_size_ceiling_witness :
  let image_data := demo.zeros (3 * demo.huge_groups) in
  b64decode (Platform := demo.platform) (demo.zeros_encoded demo.huge_groups)
  = Some image_data
  /\ (Z.of_nat (String.length image_data) > 10 * 1024 * 1024)%Z
  /\ save_base64_image (P := demo.platform) new_CheeseScraper demo.payload_huge
       "blue_571fd9a957.jpg" empty_fs
     = (empty_fs, None).
Proof.
  assert (Hlen : (Z.of_nat (String.length (demo.zeros (3 * demo.huge_groups)))
                  > 10 * 1024 * 1024)%Z).
  { rewrite zeros_length. unfold demo.huge_groups. lia. }
  split; [apply zeros_encoded_decodes|]. split; [exact Hlen|].
  exact (scraper_properties.save_base64_image_size_ceiling (P := demo.platform)
           demo.payload_huge "blue_571fd9a957.jpg" "data:image/jpeg;base64"
           (demo.zeros_encoded demo.huge_groups)
           (demo.zeros (3 * demo.huge_groups)) empty_fs
           (split_data_uri _) (zeros_encoded_decodes _) Hlen).
Defined.

Lemma save_base64_image_dimension_floor_witness :
  let file_path := "scraped_cheese_images/blue_571fd9a957.jpg" in
  let small :=
    save_base64_image (P := demo.platform) new_CheeseScraper demo.payload_small
      "blue_571fd9a957.jpg" empty_fs in
  let large :=
    save_base64_image (P := demo.platform) new_CheeseScraper demo.payload_large
      "blue_571fd9a957.jpg" empty_fs in
  (snd small = None /\ files (fst small) !! file_path = None)
  /\ snd large = Some file_path.
Proof.
  assert (Hfree :
            path_join "scraped_cheese_images" "blue_571fd9a957.jpg"
            ∉ unwritable empty_fs) by apply not_elem_of_empty.
  split.
  - refine (proj1 (proj2 (proj2 (proj2
      (scraper_properties.save_base64_image_dimension_floor (P := demo.platform)
         demo.payload_small "blue_571fd9a957.jpg" "data:image/jpeg;base64"
         "c21hbGw=" "small" 50 50 empty_fs eq_refl eq_refl _ Hfree eq_refl)))) _).
    + vm_compute. discriminate.
    + split; reflexivity.
  - refine (proj2 (proj2 (proj2 (proj2
      (scraper_properties.save_base64_image_dimension_floor (P := demo.platform)
         demo.payload_large "blue_571fd9a957.jpg" "data:image/jpeg;base64"
         "bGFyZ2U=" "large" 200 200 empty_fs eq_refl eq_refl _ Hfree eq_refl)))) _).
    + vm_compute. discriminate.
    + split; reflexivity.
Defined.



Lemma candidate_filename_from_category_and_digest_witness :
  let st :=
    {| candidates_found := []; processed_count := 0; disk_images := empty_fs |} in
  payload_loop (P := demo.platform) new_CheeseScraper "2025-03-01" "washed rind" 10
    ["data:image/jpeg;base64"; demo.payload_large] st
  = payload_loop (P := demo.platform) new_CheeseScraper "2025-03-01" "washed rind" 10
      [demo.payload_large]
      {| candidates_found := []; processed_count := 1; disk_images := empty_fs |}.
Proof.
  exact (proj2 (proj2
           (scraper_properties.candidate_filename_from_category_and_digest
              (P := demo.platform)))
           new_CheeseScraper "2025-03-01" "washed rind" 10%Z
           "data:image/jpeg;base64" [demo.payload_large]
           {| candidates_found := []; processed_count := 0; disk_images := empty_fs |}
           eq_refl eq_refl).
Defined.

Lemma pending_uploads_stay_unique_witness :
  let actions :=
    [Run demo.search_twice "2025-03-01"; Construct true;
     Outside demo.stock true; Run demo.search_twice "2025-03-02"] in
  let w := demo.world_with (Stored demo.one_queued) in
  let sys :=
    perform_all (P := demo.platform) actions (new_CheeseScrapingAgent true w, w) in
  disk_unique (state_file w)
  /\ disk_unique (state_file (snd sys))
  /\ unique_paths (state (fst sys)).
Proof.
  assert (H : disk_unique (state_file (demo.world_with (Stored demo.one_queued)))).
  { intros items Hitems. vm_compute in Hitems. injection Hitems as <-.
    vm_compute. apply NoDup_singleton. }
  split; [exact H|].
  exact (agent_properties.pending_uploads_stay_unique (P := demo.platform)
           _ true _ H).
Defined.

Lemma run_counts_appended_entries_witness :
  let w := demo.world_with (Stored demo.one_queued) in
  let self := new_CheeseScrapingAgent true w in
  let block :=
    try_block (P := demo.platform) "2025-03-01" demo.stock (Ok demo.three) (state self) in
  snd block = Ok (Some 1%Z)
  /\ length demo.three = 3
  /\ state (fst (run (P := demo.platform) demo.search_twice "2025-03-01" self w))
     = fst block
  /\ getitem (fst block) "total_images_scraped" = Ok (JInt 2).
Proof.
  split; [reflexivity|]. split; [reflexivity|]. split; [|reflexivity].
  exact (proj1 (agent_properties.run_counts_appended_entries (P := demo.platform)
                  demo.search_twice "2025-03-01"
                  (new_CheeseScrapingAgent true (demo.world_with (Stored demo.one_queued)))
                  (demo.world_with (Stored demo.one_queued))
                  new_CheeseScraper demo.stock demo.three _ 1%Z
                  eq_refl eq_refl eq_refl)).
Defined.

Lemma run_without_scraper_changes_nothing_witness :
  let w := demo.world_with Corrupt in
  let self := new_CheeseScrapingAgent false w in
  scraper self = None
  /\ run (P := demo.platform) demo.search "2025-03-01" self w = (self, w).
Proof.
  split; [reflexivity|].
  exact (agent_properties.run_without_scraper_changes_nothing (P := demo.platform)
           demo.search "2025-03-01"
           (new_CheeseScrapingAgent false (demo.world_with Corrupt))
           (demo.world_with Corrupt) eq_refl).
Defined.

(** Without a scraper the state file is not written: where there was none
    there is none after the run, though [save_agent_state] on the same
    agent would have made one. *)
Lemma run_without_scraper_persists_counterexample :
  let w := demo.fresh_world in
  let self := new_CheeseScrapingAgent false w in
  let after := run (P := demo.platform) demo.search "2025-03-01" self w in
  scraper self = None
  /\ state (fst after) = state self
  /\ state_file_writable w = true
  /\ state_file (snd after) = Missing
  /\ state_file (snd after) <> Stored (state self)
  /\ state_file (save_agent_state self w) = Stored (state self).
Proof.
  vm_compute. repeat split. discriminate.
Qed.

Lemma run_saves_on_every_exit_witness :
  let w := demo.world_with (Stored demo.bad_total) in
  let self := new_CheeseScrapingAgent true w in
  let block :=
    try_block (P := demo.platform) "2025-03-01" demo.stock (Ok demo.three) (state self) in
  let after := run (P := demo.platform) demo.search_twice "2025-03-01" self w in
  snd block = Raise TypeError
  /\ state_file (snd after) = Stored (fst block)
  /\ (exists blue hard,
        getitem (fst block) "pending_uploads" = Ok (JArr [blue; hard]))
  /\ getitem (fst block) "total_images_scraped" = Ok (JStr "many").
Proof.
  split; [reflexivity|]. split.
  - exact (proj1 (proj2 (proj2
             (agent_properties.run_saves_on_every_exit (P := demo.platform)
                demo.search_twice "2025-03-01"
                (new_CheeseScrapingAgent true (demo.world_with (Stored demo.bad_total)))
                (demo.world_with (Stored demo.bad_total))
                new_CheeseScraper demo.stock (Ok demo.three) _ (Raise TypeError)
                eq_refl eq_refl eq_refl))) eq_refl).
  - split; [|reflexivity]. do 2 eexists. vm_compute. reflexivity.
Defined.


Lemma load_agent_state_unreadable_gives_default_witness :
  load_agent_state (demo.world_with Corrupt)
  = JObj [("total_images_scraped", JInt 0);
          ("pending_uploads", JArr []);
          ("daily_stats", JObj [])].
Proof.
  exact (proj1 (agent_properties.load_agent_state_unreadable_gives_default
                  (demo.world_with Corrupt) eq_refl)).
Defined.

(** *** Runs of the whole program *)

(** A first run on no state file: one candidate for each of the six
    categories, six entries queued and counted, for the total and for the
    day. *)
Example first_run :
  let w := main (P := demo.platform) true demo.search "2025-03-01" demo.fresh_world in
  demo.queue_length (demo.stored w) = Some 6
  /\ getitem (demo.stored w) "total_images_scraped" = Ok (JInt 6)
  /\ getitem (demo.stored w) "daily_stats"
     = Ok (JObj [("2025-03-01", JObj [("scraped", JInt 6)])]).
Proof. vm_compute. repeat split. Qed.

(** A second run that finds the same files queues and counts nothing,
    and opens a bucket at zero for its day. *)
Example second_run :
  let w1 := main (P := demo.platform) true demo.search "2025-03-01" demo.fresh_world in
  let w2 := main (P := demo.platform) true demo.search "2025-03-02" w1 in
  demo.queue_length (demo.stored w2) = Some 6
  /\ getitem (demo.stored w2) "total_images_scraped" = Ok (JInt 6)
  /\ getitem (demo.stored w2) "daily_stats"
     = Ok (JObj [("2025-03-01", JObj [("scraped", JInt 6)]);
                 ("2025-03-02", JObj [("scraped", JInt 0)])]).
Proof. vm_compute. repeat split. Qed.

(** A driver that cannot be quit makes the search raise; the run still
    writes the state file, with the default state it had loaded. *)
Example run_with_stuck_driver :
  let found :=
    demo.search_stuck new_CheeseScraper 10%Z empty_fs in
  let w := main (P := demo.platform) true demo.search_stuck "2025-03-01" demo.fresh_world in
  snd found = Raise (OtherError "driver.quit")
  /\ state_file w = Stored (JObj default_state).
Proof. vm_compute. split; reflexivity. Qed.

End instances.

(** * Further properties of the scraper *)

Module scraper_coverage.
Import cheese_scraper spec.
Section WithPlatform.
Context {P : Platform}.

(** ** The scan of a page *)

Lemma slice_to_sublist {A} n (l : list A) : sublist (slice_to n l) l.
Proof. unfold slice_to. destruct (0 <=? n)%Z; apply sublist_take. Qed.

Lemma slice_to_length {A} n (l : list A) :
  (0 <= n)%Z -> (Z.of_nat (length (slice_to n l)) <= n)%Z.
Proof.
  intros Hn. unfold slice_to.
  destruct (Z.leb_spec 0 n); [|lia]. rewrite length_take. lia.
Qed.

Lemma collect_sources_sound elements image_data_list :
  NoDup image_data_list ->
  let sources := collect_sources elements image_data_list in
  NoDup sources
  /\ forall src,
       src ∈ sources ->
       src ∈ image_data_list
       \/ (Some src ∈ elements /\ String.prefix "data:image" src = true).
Proof.
  revert image_data_list.
  induction elements as [|[src|] rest IH]; intros acc Hnd; simpl.
  - split; [assumption | auto].
  - destruct (String.prefix "data:image" src) eqn:Hpre; simpl.
    + destruct (bool_decide (src ∈ acc)) eqn:Hin; simpl.
      * destruct (IH acc Hnd) as [Hnd' Hfrom]. split; [assumption|].
        intros s Hs. destruct (Hfrom s Hs) as [?|[? ?]]; [now left|].
        right. split; [now right | assumption].
      * apply bool_decide_eq_false_1 in Hin.
        destruct (IH (acc ++ [src])) as [Hnd' Hfrom].
        { apply NoDup_app. split; [assumption|]. split; [|apply NoDup_singleton].
          intros x Hx ->%list_elem_of_singleton. contradiction. }
        split; [assumption|].
        intros s Hs. destruct (Hfrom s Hs) as [Hacc|[? ?]].
        -- apply elem_of_app in Hacc as [?| ->%list_elem_of_singleton];
             [now left|]. right. split; [left | assumption].
        -- right. split; [now right | assumption].
    + destruct (IH acc Hnd) as [Hnd' Hfrom]. split; [assumption|].
      intros s Hs. destruct (Hfrom s Hs) as [?|[? ?]]; [now left|].
      right. split; [now right | assumption].
  - destruct (IH acc Hnd) as [Hnd' Hfrom]. split; [assumption|].
    intros s Hs. destruct (Hfrom s Hs) as [?|[? ?]]; [now left|].
    right. split; [now right | assumption].
Qed.

Lemma collect_sources_keeps elements image_data_list src :
  src ∈ image_data_list -> src ∈ collect_sources elements image_data_list.
Proof.
  revert image_data_list.
  induction elements as [|[s|] rest IH]; intros acc Hin; simpl; [assumption| |auto].
  destruct (_ && _); [|auto]. apply IH, elem_of_app. now left.
Qed.

Lemma collect_sources_complete elements image_data_list src :
  Some src ∈ elements ->
  String.prefix "data:image" src = true ->
  src ∈ collect_sources elements image_data_list.
Proof.
  revert image_data_list.
  induction elements as [|[s|] rest IH]; intros acc Hin Hpre; simpl.
  - inversion Hin.
  - apply elem_of_cons in Hin as [[= <-]|Hin].
    + rewrite Hpre. simpl.
      destruct (bool_decide (src ∈ acc)) eqn:Hacc; simpl.
      * apply bool_decide_eq_true_1 in Hacc. now apply collect_sources_keeps.
      * apply collect_sources_keeps, elem_of_app. right. left.
    + destruct (_ && _); now apply IH.
  - apply elem_of_cons in Hin as [[=]|Hin]. now apply IH.
Qed.

(** X1. What [scrape_image_data] returns holds no source twice, holds only
    sources that start with [data:image] and are the [src] of an element
    of the page, and, for a limit that is not negative, no more sources
    than the limit; and when the limit is at least the number of elements
    of the page, every such source of the page is returned. *)
Theorem scrape_image_data_sources
    (web : browser) (search_url : string) (max_images : Z) (sources : list string) :
  scrape_image_data web search_url max_images = Ok sources ->
  NoDup sources
  /\ (forall src,
        src ∈ sources ->
        String.prefix "data:image" src = true
        /\ exists elements quit_ok,
             web search_url = Shown elements quit_ok /\ Some src ∈ elements)
  /\ ((0 <= max_images)%Z -> (Z.of_nat (length sources) <= max_images)%Z)
  /\ (forall elements quit_ok src,
        web search_url = Shown elements quit_ok ->
        (Z.of_nat (length elements) <= max_images)%Z ->
        Some src ∈ elements ->
        String.prefix "data:image" src = true ->
        src ∈ sources).
Proof.
  unfold scrape_image_data, quit_driver.
  destruct (web search_url) as [|quit_ok|elements quit_ok] eqn:Hweb.
  - intros [= <-]. split; [constructor|]. split; [intros ? H; inversion H|].
    split; [simpl; lia | discriminate].
  - destruct quit_ok; [|discriminate]. intros [= <-].
    split; [constructor|]. split; [intros ? H; inversion H|].
    split; [simpl; lia | discriminate].
  - destruct quit_ok; [|discriminate].
    destruct (collect_sources_sound elements [] (NoDup_nil_2)) as [Hnd Hfrom].
    pose proof (collect_sources_complete elements []) as Hall.
    assert (Hcount : forall acc,
              length (collect_sources elements acc) <= length acc + length elements).
    { clear. induction elements as [|[s|] rest IH]; intros acc; simpl; [lia| |].
      - destruct (_ && _).
        + specialize (IH (acc ++ [s])). rewrite length_app in IH. simpl in IH. lia.
        + specialize (IH acc). lia.
      - specialize (IH acc). lia. }
    specialize (Hcount []). simpl in Hcount.
    set (found := collect_sources elements []) in *.
    assert (Hslice : sublist sources found ->
              NoDup sources
              /\ forall src, src ∈ sources ->
                   String.prefix "data:image" src = true
                   /\ exists elements0 quit_ok,
                        Shown elements true = Shown elements0 quit_ok
                        /\ Some src ∈ elements0).
    { intros Hsub. split; [eapply sublist_NoDup; eassumption|].
      intros src Hsrc. apply (elem_of_sublist _ _ _ Hsrc) in Hsub.
      destruct (Hfrom src Hsub) as [Hnil|[Hpage Hpre]]; [inversion Hnil|].
      split; [assumption|]. now exists elements, true. }
    destruct found as [|s0 found'] eqn:Hfound.
    + intros [= <-]. destruct (Hslice (sublist_nil)) as [H1 H2].
      split; [assumption|]. split; [assumption|]. split; [simpl; lia|].
      intros els q src [= <- <-] _ Hin Hpre.
      specialize (Hall src Hin Hpre). inversion Hall.
    + intros [= <-].
      destruct (Hslice (slice_to_sublist _ _)) as [H1 H2].
      split; [assumption|]. split; [assumption|].
      split; [apply slice_to_length|].
      intros els q src [= <- <-] Hlen Hin Hpre.
      specialize (Hall src Hin Hpre).
      unfold slice_to. destruct (Z.leb_spec 0 max_images); [|lia].
      rewrite take_ge; [assumption|]. lia.
Qed.

(** ** The validator *)

Lemma save_base64_image_outcome self base64_data filename fs :
  save_outcome self base64_data filename fs
    (save_base64_image self base64_data filename fs).
Proof.
  unfold save_base64_image.
  destruct (split_once "," base64_data) as [[header encoded]|] eqn:Hsplit;
    [|constructor].
  destruct (b64decode encoded) as [image_data|] eqn:Hdec; [|constructor].
  destruct (Z.gtb_spec (Z.of_nat (String.length image_data)) (max_file_size self));
    [constructor|].
  destruct (bool_decide _); [constructor|].
  rewrite scraper_properties.image_open_written.
  destruct (image_size image_data) as [[width height]|] eqn:Hsize.
  - destruct ((width <? min_width self)%Z || (height <? min_height self)%Z) eqn:Hdim.
    + apply orb_true_iff in Hdim. rewrite !Z.ltb_lt in Hdim.
      now apply (TooSmall _ _ _ _ header encoded image_data width height).
    + apply orb_false_iff in Hdim. rewrite !Z.ltb_ge in Hdim.
      now apply (Saved _ _ _ _ header encoded image_data width height).
  - now apply (NotAnImage _ _ _ _ header encoded image_data).
Qed.





(** X4. After a rejection the file of that name is in one of three states:
    as it was before the call (nothing was written); absent, whatever was
    there before (an image below the minimum was written and removed); or
    holding the decoded bytes, which are no image (the write is not undone
    when the file fails to open as an image). *)
Theorem save_base64_image_rejects
    (self : CheeseScraper) (base64_data filename : string) (fs fs' : imgfs) :
  save_base64_image self base64_data filename fs = (fs', None) ->
  let path := path_join (output_dir self) filename in
  fs' = fs
  \/ (files fs' !! path = None
      /\ exists header encoded image_data width height,
           split_once "," base64_data = Some (header, encoded)
           /\ b64decode encoded = Some image_data
           /\ image_size image_data = Some (width, height)
           /\ (width < min_width self \/ height < min_height self)%Z)
  \/ (exists header encoded image_data,
        split_once "," base64_data = Some (header, encoded)
        /\ b64decode encoded = Some image_data
        /\ image_size image_data = None
        /\ files fs' !! path = Some image_data).
Proof.
  intros Hsave path. unfold path.
  destruct (save_base64_image_outcome self base64_data filename fs)
    as [ |header encoded image_data Hsplit Hdec Hlen Hsize
        |header encoded image_data width height Hsplit Hdec Hlen Hsize Hdim
        | ]; try discriminate; injection Hsave as <-.
  - now left.
  - right. right. exists header, encoded, image_data.
    repeat (split; [assumption|]). simpl. apply lookup_insert_eq.
  - right. left. split; [simpl; apply lookup_delete_eq|].
    now exists header, encoded, image_data, width, height.
Qed.

(** ** The search *)

Lemma scrape_image_data_length web search_url max_images sources :
  scrape_image_data web search_url max_images = Ok sources ->
  (0 <= max_images)%Z ->
  (Z.of_nat (length sources) <= max_images)%Z.
Proof.
  unfold scrape_image_data, quit_driver. intros Hscrape Hmax.
  destruct (web search_url) as [|quit_ok|elements quit_ok].
  - injection Hscrape as <-. simpl. lia.
  - destruct quit_ok; [|discriminate]. injection Hscrape as <-. simpl. lia.
  - destruct quit_ok; [|discriminate].
    destruct (collect_sources elements []); injection Hscrape as <-.
    + simpl. lia.
    + now apply slice_to_length.
Qed.

Lemma process_payload_adds self today cheese_type b64_data st :
  let st' := process_payload self today cheese_type b64_data st in
  candidates_found st' = candidates_found st
  \/ exists c,
       candidates_found st' = candidates_found st ++ [c]
       /\ cand_cheese_type c = cheese_type.
Proof.
  unfold process_payload.
  destruct (save_base64_image _ _ _ _) as [fs [path|]]; simpl; [|now left].
  right. eexists. split; [reflexivity|]. reflexivity.
Qed.

Lemma reached_false max_total_images st :
  reached max_total_images st = false ->
  (Z.of_nat (length (candidates_found st)) < max_total_images)%Z.
Proof. unfold reached. rewrite Z.geb_leb. intros H. now apply Z.leb_gt in H. Qed.

Lemma payload_loop_bound self today cheese_type max_total_images image_data_list st :
  (Z.of_nat (length (candidates_found st)) <= Z.max 0 max_total_images)%Z ->
  (Z.of_nat
     (length (candidates_found
                (payload_loop self today cheese_type max_total_images
                   image_data_list st)))
   <= Z.max 0 max_total_images)%Z.
Proof.
  revert st. induction image_data_list as [|b64_data rest IH]; intros st Hst; simpl;
    [assumption|].
  destruct (reached max_total_images st) eqn:Hgo; [assumption|].
  apply IH. apply reached_false in Hgo.
  destruct (process_payload_adds self today cheese_type b64_data st)
    as [-> | (c & -> & _)]; [assumption|].
  rewrite length_app. simpl. lia.
Qed.

Lemma type_loop_bound self web today max_total_images types st :
  (Z.of_nat (length (candidates_found st)) <= Z.max 0 max_total_images)%Z ->
  (Z.of_nat
     (length (candidates_found
                (fst (type_loop self web today max_total_images types st))))
   <= Z.max 0 max_total_images)%Z.
Proof.
  revert st. induction types as [|cheese_type rest IH]; intros st Hst; simpl;
    [assumption|].
  destruct (reached max_total_images st); [assumption|].
  destruct (scrape_image_data _ _ _) as [image_data_list|e]; [|assumption].
  pose proof (payload_loop_bound self today cheese_type max_total_images
                image_data_list st Hst) as Hst1.
  destruct (reached max_total_images _); [assumption|]. now apply IH.
Qed.

(** X5. A search returns at most [max_total_images] candidates, and for a
    target of zero or less it returns none, visits no page and leaves the
    image directory as it was. *)
Theorem find_and_download_candidates_cap
    (self : CheeseScraper) (web : browser) (today : string)
    (max_total_images : Z) (fs : imgfs) (candidates : list Candidate) :
  snd (find_and_download_candidates self web today max_total_images fs)
  = Ok candidates ->
  (Z.of_nat (length candidates) <= Z.max 0 max_total_images)%Z
  /\ ((max_total_images <= 0)%Z ->
      forall web',
        find_and_download_candidates self web' today max_total_images fs
        = (fs, Ok [])).
Proof.
  unfold find_and_download_candidates. intros Hfind. split.
  - pose proof (type_loop_bound self web today max_total_images (cheese_types self)
                  {| candidates_found := []; processed_count := 0;
                     disk_images := fs |}) as Hbound.
    destruct (type_loop _ _ _ _ _ _) as [st [[]|e]]; simpl in *; [|discriminate].
    injection Hfind as <-. apply Hbound. lia.
  - intros Hmax web'.
    assert (Hstop : reached max_total_images
                      {| candidates_found := []; processed_count := 0;
                         disk_images := fs |} = true).
    { unfold reached. simpl. rewrite Z.geb_leb. apply Z.leb_le. lia. }
    destruct (cheese_types self) as [|cheese_type rest]; simpl; [reflexivity|].
    now rewrite Hstop.
Qed.

(** *** The share of a category *)

Lemma of_type_app t cs cs' : of_type t (cs ++ cs') = of_type t cs + of_type t cs'.
Proof. unfold of_type. now rewrite filter_app, length_app. Qed.

Lemma of_type_one t c :
  of_type t [c] = if decide (cand_cheese_type c = t) then 1 else 0.
Proof.
  unfold of_type. rewrite filter_cons, filter_nil.
  now destruct (decide (cand_cheese_type c = t)).
Qed.

Lemma payload_loop_share self today cheese_type max_total_images image_data_list st t :
  of_type t
    (candidates_found
       (payload_loop self today cheese_type max_total_images image_data_list st))
  <= of_type t (candidates_found st)
     + (if decide (cheese_type = t) then length image_data_list else 0).
Proof.
  revert st. induction image_data_list as [|b64_data rest IH]; intros st; simpl.
  - destruct (decide (cheese_type = t)); lia.
  - destruct (reached max_total_images st); [destruct (decide (cheese_type = t)); lia|].
    specialize (IH (process_payload self today cheese_type b64_data st)).
    destruct (process_payload_adds self today cheese_type b64_data st)
      as [Heq | (c & Heq & Hc)]; rewrite Heq in IH.
    + destruct (decide (cheese_type = t)); lia.
    + rewrite of_type_app, of_type_one, Hc in IH.
      destruct (decide (cheese_type = t)); lia.
Qed.

Lemma type_loop_share self web today max_total_images types st t :
  NoDup types ->
  let per :=
    (max_total_images `div` Z.of_nat (length (cheese_types self)) + 1)%Z in
  (Z.of_nat
     (of_type t
        (candidates_found (fst (type_loop self web today max_total_images types st))))
   <= Z.of_nat (of_type t (candidates_found st))
      + (if decide (t ∈ types) then Z.max 0 per else 0))%Z.
Proof.
  intros Hnd per. revert st.
  induction types as [|cheese_type rest IH]; intros st; simpl.
  - destruct (decide (t ∈ [])); lia.
  - apply NoDup_cons in Hnd as [Hfresh Hnd]. specialize (IH Hnd).
    assert (Hmono : (Z.of_nat (of_type t (candidates_found st))
                     <= Z.of_nat (of_type t (candidates_found st))
                        + (if decide (t ∈ cheese_type :: rest)
                           then Z.max 0 per else 0))%Z)
      by (destruct (decide (t ∈ cheese_type :: rest)); lia).
    destruct (reached max_total_images st) eqn:Hgo; [exact Hmono|].
    fold per.
    destruct (scrape_image_data web (get_search_url cheese_type) per)
      as [image_data_list|e] eqn:Hscrape; [|exact Hmono].
    apply reached_false in Hgo.
    assert (Hper : (1 <= per)%Z).
    { unfold per.
      destruct (length (cheese_types self)) as [|k]; simpl.
      - rewrite Z.div_0_r. lia.
      - assert (0 <= max_total_images `div` Z.pos (Pos.of_succ_nat k))%Z
          by (apply Z.div_pos; lia).
        lia. }
    assert (Hlen : (Z.of_nat (length image_data_list) <= per)%Z)
      by (apply (scrape_image_data_length _ _ _ _ Hscrape); lia).
    pose proof (payload_loop_share self today cheese_type max_total_images
                  image_data_list st t) as Hshare.
    set (st1 := payload_loop self today cheese_type max_total_images
                  image_data_list st) in *.
    specialize (IH st1).
    destruct (decide (cheese_type = t)) as [->|Hne].
    + rewrite decide_True by left.
      destruct (reached max_total_images st1); cbn [fst]; [lia|].
      rewrite decide_False in IH by assumption. lia.
    + assert (Hsame : of_type t (candidates_found st1)
                      <= of_type t (candidates_found st)) by lia.
      destruct (reached max_total_images st1); cbn [fst].
      * destruct (decide (t ∈ cheese_type :: rest)); lia.
      * destruct (decide (t ∈ rest)) as [Hin|Hout].
        -- rewrite decide_True by now right. lia.
        -- rewrite decide_False by (intros [?|?]%elem_of_cons; congruence). lia.
Qed.

(** X6. When the categories of the scraper are all different, no category
    has more candidates in what a search returns than its share,
    [max_total_images // len(cheese_types) + 1]. *)
Theorem find_and_download_candidates_share
    (self : CheeseScraper) (web : browser) (today : string)
    (max_total_images : Z) (fs : imgfs) (candidates : list Candidate)
    (cheese_type : string) :
  NoDup (cheese_types self) ->
  snd (find_and_download_candidates self web today max_total_images fs)
  = Ok candidates ->
  (Z.of_nat (length (filter (fun c => cand_cheese_type c = cheese_type) candidates))
   <= Z.max 0 (max_total_images `div` Z.of_nat (length (cheese_types self)) + 1))%Z.
Proof.
  intros Hnd. unfold find_and_download_candidates.
  pose proof (type_loop_share self web today max_total_images (cheese_types self)
                {| candidates_found := []; processed_count := 0; disk_images := fs |}
                cheese_type Hnd) as Hshare.
  destruct (type_loop _ _ _ _ _ _) as [st [[]|e]]; simpl in *; [|discriminate].
  intros [= <-]. fold (of_type cheese_type (candidates_found st)).
  unfold of_type at 2 in Hshare. simpl in Hshare.
  destruct (decide (cheese_type ∈ cheese_types self)); lia.
Qed.

(** *** The footprint of a search *)









(** ** The cleanup *)










(** ** How candidates are put together *)




End WithPlatform.
End scraper_coverage.

(** * Further properties of the agent *)

Module agent_coverage.
Import cheese_scraper cheese_agent spec agent_properties.
Section WithPlatform.
Context {P : Platform}.

Ltac py_steps :=
  unfold add_total, init_daily, add_daily, append_pending,
    bind, lift, self_state, set_state, ret.

(** ** Loading and saving *)


Lemma fill_defaults_nondict st defaults st' :
  (forall d, st <> JObj d) ->
  fill_defaults st defaults = Ok st' ->
  st' = st
  /\ forall key value, (key, value) ∈ defaults -> contains st key = Ok true.
Proof.
  intros Hno. induction defaults as [|[key value] rest IH]; simpl.
  - intros [= <-]. split; [reflexivity|]. intros k v H. inversion H.
  - destruct (contains st key) as [[|]|e] eqn:Hin; simpl; [| |discriminate].
    + intros Hfill. destruct (IH Hfill) as [-> Hall]. split; [reflexivity|].
      intros k v [[= -> ->]|Hk]%elem_of_cons; [assumption | now apply (Hall k v)].
    + destruct st; simpl; try discriminate. now destruct (Hno fields).
Qed.

Lemma fill_defaults_fixed st defaults :
  (forall key value, (key, value) ∈ defaults -> contains st key = Ok true) ->
  fill_defaults st defaults = Ok st.
Proof.
  induction defaults as [|[key value] rest IH]; intros Hall; simpl; [reflexivity|].
  rewrite (Hall key value) by left. simpl.
  apply IH. intros k v Hk. apply (Hall k v). now right.
Qed.

Lemma default_state_complete : defaults_in (JObj default_state).
Proof.
  intros key value Hin. unfold default_state in Hin. set_unfold in Hin.
  destruct Hin as [[= -> _]|[[= -> _]|[[= -> _]|[]]]]; reflexivity.
Qed.

Lemma load_agent_state_complete w : defaults_in (load_agent_state w).
Proof.
  unfold load_agent_state.
  destruct (state_file w) as [| |st]; try apply default_state_complete.
  destruct (fill_defaults st default_state) as [st'|e] eqn:Hfill;
    [|apply default_state_complete].
  destruct st as [| | | | |d].
  6:{ apply fill_defaults_obj in Hfill as (d' & -> & Hd').
      intros key value Hin. simpl. rewrite Hd'.
      assert (Hdef : is_Some (dict_get key default_state)).
      { pose proof (default_state_complete key value Hin) as Hc.
        simpl in Hc. injection Hc as Hc. now apply bool_decide_eq_true_1 in Hc. }
      f_equal. apply bool_decide_eq_true_2.
      destruct (dict_get key d); [eauto | exact Hdef]. }
  all: apply fill_defaults_nondict in Hfill as [-> Hall]; [exact Hall | discriminate].
Qed.

(** X9. Whatever the state file is, absent, unreadable or holding any JSON
    value, each of the three keys of the default state is [in] the state
    that [load_agent_state] returns; when that state is a dict, each of
    the three can be read from it. *)
Theorem load_agent_state_has_every_key (w : world) :
  Forall (fun kv => contains (load_agent_state w) (fst kv) = Ok true) default_state
  /\ forall d,
       load_agent_state w = JObj d ->
       Forall (fun kv => exists v, getitem (JObj d) (fst kv) = Ok v) default_state.
Proof.
  pose proof (load_agent_state_complete w) as Hall. split.
  - apply Forall_forall. intros [key value] Hin. now apply (Hall key value).
  - intros d Hd. rewrite Hd in Hall.
    apply Forall_forall. intros [key value] Hin.
    specialize (Hall key value Hin). simpl in Hall. injection Hall as Hall.
    apply bool_decide_eq_true_1 in Hall as [v Hv].
    exists v. simpl. now rewrite Hv.
Qed.

Lemma all_in_defaults_in st : all_in st = true <-> defaults_in st.
Proof.
  unfold all_in, defaults_in. rewrite forallb_forall. split.
  - intros Hall key value Hin. apply list_elem_of_In in Hin.
    specialize (Hall _ Hin). simpl in Hall.
    destruct (contains st key) as [[|]|]; congruence.
  - intros Hall [key value] Hin. apply list_elem_of_In in Hin.
    simpl. now rewrite (Hall key value Hin).
Qed.

(** X10. A state file that holds a JSON value other than an object gives
    the default state, unless each of the three keys is [in] the value (an
    element of the list, a part of the string), in which case the value
    itself becomes the state; null, a truth value and a number always give
    the default state. *)
Theorem load_agent_state_not_a_dict (w : world) (st : json) :
  state_file w = Stored st ->
  (forall d, st <> JObj d) ->
  load_agent_state w = (if all_in st then st else JObj default_state)
  /\ (match st with
      | JNull | JBool _ | JInt _ => load_agent_state w = JObj default_state
      | _ => True
      end).
Proof.
  intros Hw Hno.
  assert (Hload : load_agent_state w = if all_in st then st else JObj default_state).
  { unfold load_agent_state. rewrite Hw.
    destruct (fill_defaults st default_state) as [st'|e] eqn:Hfill.
    - apply fill_defaults_nondict in Hfill as [-> Hall]; [|assumption].
      now apply all_in_defaults_in in Hall as ->.
    - destruct (all_in st) eqn:Hall; [|reflexivity].
      apply all_in_defaults_in in Hall.
      rewrite (fill_defaults_fixed _ _ Hall) in Hfill. discriminate. }
  split; [exact Hload|].
  destruct st; try exact I; rewrite Hload; reflexivity.
Qed.

(** X11. Saving and loading is a round trip for every state in which the
    three default keys are found, so for every state that was loaded: a
    state file that can be written gives back, when loaded, the state
    that was saved; one that cannot be written gives what it gave before. *)
Theorem save_then_load (self : CheeseScrapingAgent) (w : world) :
  defaults_in (state self) ->
  load_agent_state (save_agent_state self w)
  = if state_file_writable w then state self else load_agent_state w.
Proof.
  intros Hall. unfold save_agent_state.
  destruct (state_file_writable w); [|reflexivity].
  unfold load_agent_state. cbn [state_file].
  now rewrite (fill_defaults_fixed _ _ Hall).
Qed.

(** ** What a run keeps *)

Lemma dict_set_keeps k key v d :
  is_Some (dict_get k d) -> is_Some (dict_get k (dict_set key v d)).
Proof.
  intros Hk. destruct (String.eqb_spec key k) as [->|Hne].
  - rewrite dict_get_set_eq. eauto.
  - now rewrite dict_get_set_ne.
Qed.

Lemma sets_a_key_keeps st st' k :
  sets_a_key st st' -> contains st k = Ok true -> contains st' k = Ok true.
Proof.
  intros [->|(d & key & v & -> & ->)]; [auto|]. simpl.
  intros [= Hk]. f_equal. apply bool_decide_eq_true_1 in Hk.
  apply bool_decide_eq_true_2. now apply dict_set_keeps.
Qed.

Lemma append_pending_sets item st st' r :
  append_pending item st = (st', r) -> sets_a_key st st'.
Proof.
  py_steps.
  destruct (getitem st "pending_uploads") as [pending|e] eqn:Hget;
    [|intros [= <- _]; now left].
  destruct (append pending item) as [pending'|e]; [|intros [= <- _]; now left].
  apply getitem_inv in Hget as (d & -> & _). simpl.
  intros [= <- _]. right. now exists d, "pending_uploads", pending'.
Qed.

Lemma add_total_sets n st st' r : add_total n st = (st', r) -> sets_a_key st st'.
Proof.
  py_steps.
  destruct (getitem st "total_images_scraped") as [v|e] eqn:Hget;
    [|intros [= <- _]; now left].
  destruct (add_int v n) as [v'|e]; [|intros [= <- _]; now left].
  apply getitem_inv in Hget as (d & -> & _). simpl.
  intros [= <- _]. right. now exists d, "total_images_scraped", v'.
Qed.

Lemma init_daily_sets today_str st st' r :
  init_daily today_str st = (st', r) -> sets_a_key st st'.
Proof.
  py_steps.
  destruct (getitem st "daily_stats") as [daily|e] eqn:Hget;
    [|intros [= <- _]; now left].
  destruct (contains daily today_str) as [present|e]; [|intros [= <- _]; now left].
  destruct present; simpl; [intros [= <- _]; now left|].
  destruct (setitem daily today_str _) as [daily'|e]; [|intros [= <- _]; now left].
  apply getitem_inv in Hget as (d & -> & _). simpl.
  intros [= <- _]. right. now exists d, "daily_stats", daily'.
Qed.

Lemma add_daily_sets today_str n st st' r :
  add_daily today_str n st = (st', r) -> sets_a_key st st'.
Proof.
  py_steps.
  destruct (getitem st "daily_stats") as [daily|e] eqn:Hget;
    [|intros [= <- _]; now left].
  destruct (getitem daily today_str) as [bucket|e]; [|intros [= <- _]; now left].
  destruct (getitem bucket "scraped") as [v|e]; [|intros [= <- _]; now left].
  destruct (add_int v n) as [v'|e]; [|intros [= <- _]; now left].
  destruct (setitem bucket "scraped" v') as [bucket'|e]; [|intros [= <- _]; now left].
  destruct (setitem daily today_str bucket') as [daily'|e];
    [|intros [= <- _]; now left].
  apply getitem_inv in Hget as (d & -> & _). simpl.
  intros [= <- _]. right. now exists d, "daily_stats", daily'.
Qed.

Lemma merge_keeps pending_list existing_paths n st st' r k :
  merge pending_list existing_paths n st = (st', r) ->
  contains st k = Ok true -> contains st' k = Ok true.
Proof.
  revert existing_paths n st.
  induction pending_list as [|pending_item rest IH]; intros existing_paths n st; simpl.
  - now intros [= <- _].
  - destruct (in_paths _ _); simpl; [apply IH|].
    unfold bind at 1.
    destruct (append_pending (entry_json pending_item) st) as [st1 [[]|e]] eqn:Happ.
    + intros Hmerge Hk. eapply IH; [exact Hmerge|].
      eapply sets_a_key_keeps; [|exact Hk]. eapply append_pending_sets, Happ.
    + intros [= <- _] Hk.
      eapply sets_a_key_keeps; [|exact Hk]. eapply append_pending_sets, Happ.
Qed.

Lemma try_block_keeps today_str fs found st st' r k :
  try_block today_str fs found st = (st', r) ->
  contains st k = Ok true -> contains st' k = Ok true.
Proof.
  intros Hrun Hk.
  destruct found as [candidates|e]; [|now injection Hrun as <- _].
  destruct candidates as [|cand rest] eqn:Hc; [now injection Hrun as <- _|].
  rewrite <- Hc in *. assert (Hne : candidates <> []) by now rewrite Hc.
  rewrite (try_block_steps _ _ _ _ Hne) in Hrun.
  destruct (prepare fs candidates) as [pending_list|e]; [|now injection Hrun as <- _].
  destruct (existing_paths_of st) as [paths|e]; [|now injection Hrun as <- _].
  destruct (merge pending_list paths 0 st) as [st1 [n|e]] eqn:H1.
  2:{ injection Hrun as <- _. eapply merge_keeps; eassumption. }
  assert (Hk1 : contains st1 k = Ok true) by (eapply merge_keeps; eassumption).
  destruct (add_total n st1) as [st2 [[]|e]] eqn:H2.
  2:{ injection Hrun as <- _.
      eapply sets_a_key_keeps; [eapply add_total_sets, H2 | exact Hk1]. }
  assert (Hk2 : contains st2 k = Ok true)
    by (eapply sets_a_key_keeps; [eapply add_total_sets, H2 | exact Hk1]).
  destruct (init_daily today_str st2) as [st3 [[]|e]] eqn:H3.
  2:{ injection Hrun as <- _.
      eapply sets_a_key_keeps; [eapply init_daily_sets, H3 | exact Hk2]. }
  assert (Hk3 : contains st3 k = Ok true)
    by (eapply sets_a_key_keeps; [eapply init_daily_sets, H3 | exact Hk2]).
  destruct (add_daily today_str n st3) as [st4 [[]|e]] eqn:H4;
    injection Hrun as <- _;
    (eapply sets_a_key_keeps; [eapply add_daily_sets, H4 | exact Hk3]).
Qed.

(** X12. What a run with a scraper leaves in memory is what the next
    process loads: after a run on a state file that can be written,
    [load_agent_state] gives the state the agent ended the run with, when
    the three default keys were found in the state it started with, as they
    are in every loaded state. *)
Theorem run_then_load
    (find : discovery) (today_str : string) (self : CheeseScrapingAgent)
    (w : world) (sc : CheeseScraper) :
  scraper self = Some sc ->
  state_file_writable w = true ->
  defaults_in (state self) ->
  let after := run find today_str self w in
  load_agent_state (snd after) = state (fst after)
  /\ defaults_in (state (fst after)).
Proof.
  intros Hsc Hw Hall.
  rewrite (run_with_scraper _ _ _ _ _ Hsc). simpl.
  destruct (find sc (daily_target self) (images w)) as [fs found]. simpl.
  destruct (try_block today_str fs found (state self)) as [st' r] eqn:Hrun. simpl.
  assert (Hall' : defaults_in st').
  { intros key value Hin. eapply try_block_keeps; [exact Hrun|].
    now apply (Hall key value). }
  split; [|exact Hall'].
  unfold save_agent_state. cbn [state_file_writable]. rewrite Hw.
  unfold load_agent_state. cbn [state_file state].
  now rewrite (fill_defaults_fixed _ _ Hall').
Qed.

Lemma merge_frame pending_list existing_paths n st st' r k :
  merge pending_list existing_paths n st = (st', r) ->
  k <> "pending_uploads" -> getitem st' k = getitem st k.
Proof.
  intros Hmerge Hk.
  destruct (getitem st "pending_uploads") as [pending|e] eqn:Hget.
  - destruct pending as [| | | |items|].
    5:{ destruct (merge_arr pending_list existing_paths n st items Hget)
          as (st1 & Hm & _ & Hframe).
        rewrite Hm in Hmerge. injection Hmerge as <- _. now apply Hframe. }
    all: destruct (merge_other pending_list existing_paths n st) as [r1 Hm];
      [rewrite Hget; discriminate|].
    all: rewrite Hm in Hmerge; now injection Hmerge as <- _.
  - destruct (merge_other pending_list existing_paths n st) as [r1 Hm];
      [rewrite Hget; discriminate|].
    rewrite Hm in Hmerge. now injection Hmerge as <- _.
Qed.

Lemma bucket_of_frame day st st' :
  getitem st' "daily_stats" = getitem st "daily_stats" ->
  bucket_of day st' = bucket_of day st.
Proof. unfold bucket_of. now intros ->. Qed.

Lemma init_daily_other_days today_str st st' r day :
  init_daily today_str st = (st', r) ->
  day <> today_str -> bucket_of day st' = bucket_of day st.
Proof.
  py_steps. unfold bucket_of.
  destruct (getitem st "daily_stats") as [daily|e] eqn:Hget;
    [|intros [= <- _]; now rewrite Hget].
  destruct (contains daily today_str) as [present|e];
    [|intros [= <- _]; now rewrite Hget].
  destruct present; simpl; [intros [= <- _]; now rewrite Hget|].
  destruct (setitem daily today_str _) as [daily'|e] eqn:Hset;
    [|intros [= <- _]; now rewrite Hget].
  pose proof Hget as (d & -> & _)%getitem_inv.
  apply setitem_inv in Hset as (dd & -> & ->). simpl.
  intros [= <- _] Hday. simpl. rewrite dict_get_set_eq. simpl.
  now rewrite dict_get_set_ne by congruence.
Qed.

Lemma add_daily_other_days today_str n st st' r day :
  add_daily today_str n st = (st', r) ->
  day <> today_str -> bucket_of day st' = bucket_of day st.
Proof.
  py_steps. unfold bucket_of.
  destruct (getitem st "daily_stats") as [daily|e] eqn:Hget;
    [|intros [= <- _]; now rewrite Hget].
  destruct (getitem daily today_str) as [bucket|e];
    [|intros [= <- _]; now rewrite Hget].
  destruct (getitem bucket "scraped") as [v|e]; [|intros [= <- _]; now rewrite Hget].
  destruct (add_int v n) as [v'|e]; [|intros [= <- _]; now rewrite Hget].
  destruct (setitem bucket "scraped" v') as [bucket'|e];
    [|intros [= <- _]; now rewrite Hget].
  destruct (setitem daily today_str bucket') as [daily'|e] eqn:Hset;
    [|intros [= <- _]; now rewrite Hget].
  pose proof Hget as (d & -> & _)%getitem_inv.
  apply setitem_inv in Hset as (dd & -> & ->). simpl.
  intros [= <- _] Hday. simpl. rewrite dict_get_set_eq. simpl.
  now rewrite dict_get_set_ne by congruence.
Qed.

Lemma try_block_frame today_str fs found st st' r :
  try_block today_str fs found st = (st', r) ->
  (forall k,
     k <> "pending_uploads" -> k <> "total_images_scraped" -> k <> "daily_stats" ->
     getitem st' k = getitem st k)
  /\ (forall day, day <> today_str -> bucket_of day st' = bucket_of day st).
Proof.
  intros Hrun.
  destruct found as [candidates|e]; [|injection Hrun as <- _; now split].
  destruct candidates as [|cand rest] eqn:Hc; [injection Hrun as <- _; now split|].
  rewrite <- Hc in *. assert (Hne : candidates <> []) by now rewrite Hc.
  rewrite (try_block_steps _ _ _ _ Hne) in Hrun.
  destruct (prepare fs candidates) as [pending_list|e];
    [|injection Hrun as <- _; now split].
  destruct (existing_paths_of st) as [paths|e]; [|injection Hrun as <- _; now split].
  destruct (merge pending_list paths 0 st) as [st1 [n|e]] eqn:H1.
  2:{ injection Hrun as <- _. split.
      - intros k Hk _ _. now apply (merge_frame _ _ _ _ _ _ _ H1).
      - intros day _. apply bucket_of_frame.
        now apply (merge_frame _ _ _ _ _ _ _ H1). }
  assert (F1 : forall k, k <> "pending_uploads" -> getitem st1 k = getitem st k)
    by (intros k Hk; now apply (merge_frame _ _ _ _ _ _ _ H1)).
  destruct (add_total n st1) as [st2 [[]|e]] eqn:H2.
  2:{ injection Hrun as <- _. split.
      - intros k Hp Ht _. now rewrite (add_total_frame _ _ _ _ H2), F1.
      - intros day _. apply bucket_of_frame.
        rewrite (add_total_frame _ _ _ _ H2), F1 by discriminate. reflexivity. }
  assert (F2 : forall k, k <> "pending_uploads" -> k <> "total_images_scraped" ->
                 getitem st2 k = getitem st k)
    by (intros k Hp Ht; now rewrite (add_total_frame _ _ _ _ H2), F1).
  destruct (init_daily today_str st2) as [st3 [[]|e]] eqn:H3.
  2:{ injection Hrun as <- _. split.
      - intros k Hp Ht Hd. now rewrite (init_daily_frame _ _ _ _ H3), F2.
      - intros day Hday. rewrite (init_daily_other_days _ _ _ _ _ H3 Hday).
        apply bucket_of_frame, F2; discriminate. }
  destruct (add_daily today_str n st3) as [st4 [[]|e]] eqn:H4;
    injection Hrun as <- _; split.
  all: try (intros k Hp Ht Hd;
            now rewrite (add_daily_frame _ _ _ _ _ H4),
              (init_daily_frame _ _ _ _ H3), F2).
  all: intros day Hday;
    rewrite (add_daily_other_days _ _ _ _ _ _ H4 Hday),
      (init_daily_other_days _ _ _ _ _ H3 Hday);
    apply bucket_of_frame, F2; discriminate.
Qed.

(** X13. A run changes nothing of the state but the pending list, the total
    and today's bucket of the daily statistics: every other key of the
    state, and the bucket of every other day, is after the run what it
    was before, however the run ends. *)
Theorem run_keeps_the_rest
    (find : discovery) (today_str : string) (self : CheeseScrapingAgent) (w : world) :
  let st' := state (fst (run find today_str self w)) in
  (forall k,
     k <> "pending_uploads" -> k <> "total_images_scraped" -> k <> "daily_stats" ->
     getitem st' k = getitem (state self) k)
  /\ (forall day,
        day <> today_str -> bucket_of day st' = bucket_of day (state self)).
Proof.
  destruct (scraper self) as [sc|] eqn:Hsc.
  - rewrite (run_with_scraper _ _ _ _ _ Hsc). simpl.
    destruct (find sc (daily_target self) (images w)) as [fs found]. simpl.
    destruct (try_block today_str fs found (state self)) as [st' r] eqn:Hrun.
    simpl. now apply (try_block_frame _ _ _ _ _ _ Hrun).
  - unfold run. rewrite Hsc. simpl. now split.
Qed.

(** ** Runs that add nothing *)

Lemma fresh_none pending_list paths :
  (forall e, e ∈ pending_list -> entry_uri e ∈ paths) ->
  fresh pending_list paths = [].
Proof.
  induction pending_list as [|e rest IH]; intros Hall; simpl; [reflexivity|].
  assert (Hin : in_paths (entry_file_path e) paths = true)
    by (apply in_paths_elem, (Hall e); left).
  rewrite Hin. apply IH. intros e' He'. apply Hall. now right.
Qed.

Lemma fresh_covers pending_list paths e :
  e ∈ pending_list ->
  entry_uri e ∈ paths ++ map entry_uri (fresh pending_list paths).
Proof.
  revert paths. induction pending_list as [|e0 rest IH]; intros paths He;
    [inversion He|]. simpl.
  destruct (in_paths (entry_file_path e0) paths) eqn:Hin.
  - apply elem_of_cons in He as [->|He]; [|now apply IH].
    apply elem_of_app. left. now apply in_paths_elem.
  - simpl. apply elem_of_cons in He as [->|He].
    + apply elem_of_app. right. left.
    + specialize (IH (JStr (entry_file_path e0) :: paths) He).
      apply elem_of_app in IH as [[->|Hold]%elem_of_cons|Hnew].
      * apply elem_of_app. right. left.
      * apply elem_of_app. now left.
      * apply elem_of_app. right. now right.
Qed.

Lemma add_total_total n st st' r :
  add_total n st = (st', r) ->
  (st' = st /\ exists e, r = Raise e)
  \/ exists t, total_of st = Some t /\ total_of st' = Some (t + n)%Z /\ r = Ok tt.
Proof.
  py_steps. unfold total_of.
  destruct (getitem st "total_images_scraped") as [v|e] eqn:Hget;
    [|intros [= <- <-]; left; eauto].
  pose proof Hget as (d & -> & _)%getitem_inv.
  destruct v as [|b|z| | |]; simpl; intros [= <- <-]; try (left; eauto; fail).
  - right. exists (Z.b2z b). split; [reflexivity|]. split; [|reflexivity].
    simpl. now rewrite dict_get_set_eq.
  - right. exists z. split; [reflexivity|]. split; [|reflexivity].
    simpl. now rewrite dict_get_set_eq.
Qed.

Lemma total_of_frame st st' :
  getitem st' "total_images_scraped" = getitem st "total_images_scraped" ->
  total_of st' = total_of st.
Proof. unfold total_of. now intros ->. Qed.

Lemma pending_of_frame st st' :
  getitem st' "pending_uploads" = getitem st "pending_uploads" ->
  pending_of st' = pending_of st.
Proof. unfold pending_of. now intros ->. Qed.

(** The queue and the total after the steps that follow the merge. *)
Lemma after_merge today_str n st1 st' r :
  match add_total n st1 with
  | (st2, Raise e) => st' = st2 /\ r = Raise e
  | (st2, Ok _) =>
      match init_daily today_str st2 with
      | (st3, Raise e) => st' = st3 /\ r = Raise e
      | (st3, Ok _) =>
          match add_daily today_str n st3 with
          | (st4, Raise e) => st' = st4 /\ r = Raise e
          | (st4, Ok _) => st' = st4 /\ r = Ok (Some n)
          end
      end
  end ->
  getitem st' "pending_uploads" = getitem st1 "pending_uploads"
  /\ ((total_of st' = total_of st1 /\ exists e, r = Raise e)
      \/ exists t, total_of st1 = Some t /\ total_of st' = Some (t + n)%Z)
  /\ forall m, r = Ok (Some m) -> m = n.
Proof.
  destruct (add_total n st1) as [st2 r2] eqn:H2.
  pose proof (add_total_frame _ _ _ _ H2 "pending_uploads") as P2.
  pose proof (add_total_total _ _ _ _ H2) as [[-> [e ->]]|(t & Ht & Ht2 & ->)].
  { intros [-> ->]. split; [reflexivity|]. split; [left; eauto | discriminate]. }
  destruct (init_daily today_str st2) as [st3 r3] eqn:H3.
  pose proof (init_daily_frame _ _ _ _ H3) as F3.
  destruct r3 as [[]|e].
  2:{ intros [-> ->]. split; [rewrite F3, P2 by discriminate; reflexivity|].
      split; [|discriminate].
      right. exists t. split; [assumption|].
      now rewrite (total_of_frame st2 st3) by (apply F3; discriminate). }
  destruct (add_daily today_str n st3) as [st4 r4] eqn:H4.
  pose proof (add_daily_frame _ _ _ _ _ H4) as F4.
  assert (Hend : st' = st4 ->
            getitem st' "pending_uploads" = getitem st1 "pending_uploads"
            /\ ((total_of st' = total_of st1 /\ exists e, r = Raise e)
                \/ exists t, total_of st1 = Some t /\ total_of st' = Some (t + n)%Z)).
  { intros ->. split; [rewrite F4, F3, P2 by discriminate; reflexivity|].
    right. exists t. split; [assumption|].
    rewrite (total_of_frame st3 st4) by (apply F4; discriminate).
    now rewrite (total_of_frame st2 st3) by (apply F3; discriminate). }
  destruct r4 as [[]|e]; intros [Hst ->]; (destruct (Hend Hst) as [H1 H2']);
    (split; [exact H1|]); (split; [exact H2'|]); congruence.
Qed.

Lemma try_block_all_queued today_str fs candidates pending_list st st' r items :
  getitem st "pending_uploads" = Ok (JArr items) ->
  prepare fs candidates = Ok pending_list ->
  fresh pending_list (entry_paths items) = [] ->
  try_block today_str fs (Ok candidates) st = (st', r) ->
  getitem st' "pending_uploads" = Ok (JArr items)
  /\ total_of st' = total_of st
  /\ forall n, r = Ok (Some n) -> n = 0%Z.
Proof.
  intros Hget Hprep Hnone Hrun.
  destruct (try_block_through _ _ _ _ _ _ _ Hrun Hget)
    as [[-> Hno] | (cs & pl & st1 & H)].
  { split; [assumption|]. split; [reflexivity|]. intros n ->. now destruct (Hno n). }
  simpl in H. destruct H as ([= <-] & _ & Hprep' & _ & Hget1 & Hframe1 & Hrest).
  rewrite Hprep in Hprep'. injection Hprep' as <-.
  pose proof (after_merge _ _ _ _ _ Hrest) as (Hp & Ht & Hn).
  rewrite Hnone in *. cbn [length Z.of_nat map] in *. rewrite app_nil_r in Hget1.
  split; [now rewrite Hp|]. split; [|exact Hn].
  rewrite <- (total_of_frame st st1) by (apply Hframe1; discriminate).
  destruct Ht as [[Ht _]|(t & Ht1 & Ht')]; [assumption|].
  now rewrite Ht', Ht1, Z.add_0_r.
Qed.

(** X14. A run whose candidates all have a [file_path] that is queued
    already leaves the pending list and the total as they were, however it
    ends, and when it ends normally it has added zero entries. *)
Theorem run_adds_nothing_when_all_queued
    (today_str : string) (fs : imgfs) (candidates : list Candidate)
    (pending_list : list QueueEntry) (st st' : json) (r : result (option Z))
    (items : list json) :
  getitem st "pending_uploads" = Ok (JArr items) ->
  prepare fs candidates = Ok pending_list ->
  (forall e, e ∈ pending_list -> JStr (entry_file_path e) ∈ entry_paths items) ->
  try_block today_str fs (Ok candidates) st = (st', r) ->
  getitem st' "pending_uploads" = Ok (JArr items)
  /\ total_of st' = total_of st
  /\ forall n, r = Ok (Some n) -> n = 0%Z.
Proof.
  intros Hget Hprep Hall.
  apply (try_block_all_queued _ _ _ pending_list); try assumption.
  now apply fresh_none.
Qed.

(** X15. Running again on what a completed run found adds nothing: with the
    same candidates and the same files, on any day, a second run leaves
    the pending list and the total as the first run left them. *)
Theorem second_run_adds_nothing
    (today_str today_str' : string) (fs : imgfs) (candidates : list Candidate)
    (st st1 st2 : json) (n : Z) (r : result (option Z)) :
  try_block today_str fs (Ok candidates) st = (st1, Ok (Some n)) ->
  try_block today_str' fs (Ok candidates) st1 = (st2, r) ->
  getitem st2 "pending_uploads" = getitem st1 "pending_uploads"
  /\ total_of st2 = total_of st1
  /\ forall m, r = Ok (Some m) -> m = 0%Z.
Proof.
  intros Hfirst Hsecond.
  destruct (try_block_done_list _ _ _ _ _ _ Hfirst) as [items Hget].
  destruct (try_block_through _ _ _ _ _ _ _ Hfirst Hget)
    as [[_ Hno] | (cs & pl & st0 & H)]; [now destruct (Hno n)|].
  simpl in H. destruct H as ([= <-] & _ & Hprep & _ & Hget0 & _ & Hrest).
  apply after_merge in Hrest as [Hp _].
  set (added := fresh pl (entry_paths items)) in *.
  assert (Hget1 : getitem st1 "pending_uploads"
                  = Ok (JArr (items ++ map entry_json added)))
    by (now rewrite Hp).
  rewrite Hget1.
  apply (try_block_all_queued today_str' fs candidates pl st1 st2 r _ Hget1 Hprep);
    [|assumption].
  apply fresh_none. intros e He.
  rewrite entry_paths_app, entry_paths_entries. now apply fresh_covers.
Qed.

(** ** Runs that fail *)

Lemma prepare_missing fs candidates cand :
  cand ∈ candidates ->
  files fs !! cand_file_path cand = None ->
  prepare fs candidates = Raise FileNotFoundError.
Proof.
  induction candidates as [|c rest IH]; intros Hin Hnone; [inversion Hin|]. simpl.
  apply elem_of_cons in Hin as [<-|Hin]; [now rewrite Hnone|].
  destruct (files fs !! cand_file_path c); [|reflexivity].
  now rewrite (IH Hin Hnone).
Qed.

(** X16. One candidate whose file is not there costs the run all its
    candidates: the run fails before it touches the state, which is
    saved as it was loaded, whichever files of the others exist. *)
Theorem run_with_a_missing_file
    (find : discovery) (today_str : string) (self : CheeseScrapingAgent)
    (w : world) (sc : CheeseScraper) (fs : imgfs) (candidates : list Candidate)
    (cand : Candidate) :
  scraper self = Some sc ->
  find sc (daily_target self) (images w) = (fs, Ok candidates) ->
  cand ∈ candidates ->
  files fs !! cand_file_path cand = None ->
  try_block today_str fs (Ok candidates) (state self)
  = (state self, Raise FileNotFoundError)
  /\ state (fst (run find today_str self w)) = state self.
Proof.
  intros Hsc Hfind Hin Hnone.
  assert (Hrun : try_block today_str fs (Ok candidates) (state self)
                 = (state self, Raise FileNotFoundError)).
  { rewrite try_block_steps by (intros ->; inversion Hin).
    now rewrite (prepare_missing _ _ _ Hin Hnone). }
  split; [exact Hrun|].
  rewrite (run_with_scraper _ _ _ _ _ Hsc). simpl.
  rewrite Hfind. simpl. now rewrite Hrun.
Qed.

Lemma add_total_fails n st :
  total_of st = None -> exists e, add_total n st = (st, Raise e).
Proof.
  unfold total_of. py_steps.
  destruct (getitem st "total_images_scraped") as [v|e]; [|eauto].
  destruct v; simpl; try discriminate; eauto.
Qed.

(** X17. When the total of the state is no number, a run that finds new
    candidates appends their entries to the pending list and then fails
    at the total: the entries are queued, and saved, but counted nowhere,
    neither in the total nor in the daily statistics. *)
Theorem run_with_a_total_that_is_no_number
    (today_str : string) (fs : imgfs) (candidates : list Candidate)
    (pending_list : list QueueEntry) (st : json) (items paths : list json) :
  candidates <> [] ->
  prepare fs candidates = Ok pending_list ->
  getitem st "pending_uploads" = Ok (JArr items) ->
  collect_paths items = Ok paths ->
  total_of st = None ->
  exists st' e,
    try_block today_str fs (Ok candidates) st = (st', Raise e)
    /\ getitem st' "pending_uploads"
       = Ok (JArr (items ++ map entry_json (fresh pending_list (entry_paths items))))
    /\ forall k, k <> "pending_uploads" -> getitem st' k = getitem st k.
Proof.
  intros Hne Hprep Hget Hpaths Hnone.
  rewrite (try_block_steps _ _ _ _ Hne), Hprep.
  unfold existing_paths_of. rewrite Hget. simpl. rewrite Hpaths.
  apply collect_paths_entry_paths in Hpaths as ->.
  destruct (merge_arr pending_list (entry_paths items) 0 st items Hget)
    as (st1 & Hmerge & Hget1 & Hframe1).
  rewrite Hmerge.
  destruct (add_total_fails (0 + Z.of_nat (length (fresh pending_list (entry_paths items))))
              st1) as [e He].
  { rewrite (total_of_frame st st1); [assumption|]. apply Hframe1. discriminate. }
  rewrite He. now exists st1, e.
Qed.

Lemma existing_paths_not_a_list st paths :
  (forall items, getitem st "pending_uploads" <> Ok (JArr items)) ->
  existing_paths_of st = Ok paths -> paths = [].
Proof.
  intros Hno. unfold existing_paths_of.
  destruct (getitem st "pending_uploads") as [pending|e]; [|discriminate]. simpl.
  destruct pending as [| | |s|items|fields]; simpl; try discriminate.
  - destruct s; simpl; [now intros [= <-] | discriminate].
  - now destruct (Hno items).
  - destruct fields; simpl; [now intros [= <-] | discriminate].
Qed.

Lemma try_block_no_list today_str fs candidates st :
  candidates <> [] ->
  (forall items, getitem st "pending_uploads" <> Ok (JArr items)) ->
  exists e, try_block today_str fs (Ok candidates) st = (st, Raise e).
Proof.
  intros Hne Hno. rewrite (try_block_steps _ _ _ _ Hne).
  destruct (prepare fs candidates) as [pending_list|e] eqn:Hprep; [|eauto].
  destruct (existing_paths_of st) as [paths|e] eqn:Hpaths; [|eauto].
  apply (existing_paths_not_a_list _ _ Hno) in Hpaths as ->.
  destruct pending_list as [|e1 rest].
  { apply prepare_derived in Hprep as [Hlen _].
    destruct candidates; [contradiction | discriminate]. }
  simpl.
  destruct (append_pending_other (entry_json e1) st Hno) as [e He].
  unfold bind at 1. rewrite He. eauto.
Qed.

(** X18. When [pending_uploads] is not a list, a run that finds candidates
    fails and leaves the state exactly as it was: nothing is queued and
    nothing is counted. *)
Theorem run_with_a_queue_that_is_no_list
    (today_str : string) (fs : imgfs) (candidates : list Candidate) (st : json) :
  candidates <> [] ->
  (forall items, getitem st "pending_uploads" <> Ok (JArr items)) ->
  exists e, try_block today_str fs (Ok candidates) st = (st, Raise e).
Proof. apply try_block_no_list. Qed.

(** ** Sequences of runs *)











(** ** Nothing found is left out *)

Lemma prepare_covers fs candidates pending_list cand :
  prepare fs candidates = Ok pending_list ->
  cand ∈ candidates ->
  exists bytes, queue_entry cand bytes ∈ pending_list.
Proof.
  revert pending_list. induction candidates as [|c rest IH]; intros pending_list;
    [intros _ H; inversion H|]. simpl.
  destruct (files fs !! cand_file_path c) as [bytes|]; [|discriminate].
  destruct (prepare fs rest) as [tail|e]; [|discriminate]. simpl.
  intros [= <-] [->|Hin]%elem_of_cons.
  - exists bytes. left.
  - destruct (IH tail eq_refl Hin) as [b Hb]. exists b. now right.
Qed.

(** X22. After a run that ends normally every candidate of the search is in
    the queue: the pending list has an entry with the [file_path] of each
    of them, put there by this run or found there already. *)
Theorem run_queues_every_candidate
    (today_str : string) (fs : imgfs) (candidates : list Candidate)
    (st st' : json) (n : Z) (cand : Candidate) :
  try_block today_str fs (Ok candidates) st = (st', Ok (Some n)) ->
  cand ∈ candidates ->
  exists items',
    getitem st' "pending_uploads" = Ok (JArr items')
    /\ JStr ("file://" +:+ path_resolve (cand_file_path cand)) ∈ entry_paths items'.
Proof.
  intros Hrun Hin.
  destruct (try_block_done_list _ _ _ _ _ _ Hrun) as [items Hget].
  destruct (try_block_through _ _ _ _ _ _ _ Hrun Hget)
    as [[_ Hno] | (cs & pl & st1 & H)]; [now destruct (Hno n)|].
  simpl in H. destruct H as ([= <-] & _ & Hprep & _ & Hget1 & _ & Hrest).
  pose proof (after_merge _ _ _ _ _ Hrest) as (Hp & _ & _).
  eexists. split; [rewrite Hp; exact Hget1|].
  rewrite entry_paths_app, entry_paths_entries.
  destruct (prepare_covers _ _ _ _ Hprep Hin) as [bytes He].
  apply (fresh_covers pl (entry_paths items)) in He. exact He.
Qed.

(** ** The agent on the scraper *)


End WithPlatform.
End agent_coverage.

(** * The further properties on the demo platform *)

Module coverage_instances.
Import cheese_scraper cheese_agent spec.

Lemma scrape_image_data_sources_witness :
  scrape_image_data demo.web "https://www.google.com/search?q=blue+cheese" 2
  = Ok [demo.payload_small; demo.payload_large]
  /\ NoDup [demo.payload_small; demo.payload_large].
Proof.
  split; [reflexivity|].
  exact (proj1 (scraper_coverage.scrape_image_data_sources demo.web
                  "https://www.google.com/search?q=blue+cheese" 2%Z
                  [demo.payload_small; demo.payload_large] eq_refl)).
Defined.


Lemma save_base64_image_rejects_witness :
  let path := "scraped_cheese_images/blue_571fd9a957.jpg" in
  let fs' := write_file path "" empty_fs in
  save_base64_image (P := demo.platform) new_CheeseScraper
    "data:image/jpeg;base64,@@@@" "blue_571fd9a957.jpg" empty_fs
  = (fs', None)
  /\ (fs' = empty_fs
      \/ (files fs' !! path = None
          /\ exists header encoded image_data width height,
               split_once "," "data:image/jpeg;base64,@@@@" = Some (header, encoded)
               /\ b64decode (Platform := demo.platform) encoded = Some image_data
               /\ image_size (Platform := demo.platform) image_data
                  = Some (width, height)
               /\ (width < 100 \/ height < 100)%Z)
      \/ (exists header encoded image_data,
            split_once "," "data:image/jpeg;base64,@@@@" = Some (header, encoded)
            /\ b64decode (Platform := demo.platform) encoded = Some image_data
            /\ image_size (Platform := demo.platform) image_data = None
            /\ files fs' !! path = Some image_data)).
Proof.
  split; [reflexivity|].
  exact (scraper_coverage.save_base64_image_rejects (P := demo.platform)
           new_CheeseScraper "data:image/jpeg;base64,@@@@" "blue_571fd9a957.jpg"
           empty_fs
           (write_file "scraped_cheese_images/blue_571fd9a957.jpg" "" empty_fs)
           eq_refl).
Defined.

Lemma find_and_download_candidates_cap_witness :
  exists candidates,
    snd (find_and_download_candidates (P := demo.platform) new_CheeseScraper
           demo.web_large "2025-03-01" 4 empty_fs) = Ok candidates
    /\ (Z.of_nat (length candidates) <= Z.max 0 4)%Z.
Proof.
  eexists. split; [vm_compute; reflexivity|].
  refine (proj1 (scraper_coverage.find_and_download_candidates_cap
                   (P := demo.platform) new_CheeseScraper demo.web_large "2025-03-01"
                   4%Z empty_fs _ _)).
  vm_compute. reflexivity.
Defined.

Lemma find_and_download_candidates_share_witness :
  exists candidates,
    snd (find_and_download_candidates (P := demo.platform) new_CheeseScraper
           demo.web "2025-03-01" 10 empty_fs) = Ok candidates
    /\ (Z.of_nat (length (filter (fun c => cand_cheese_type c = "blue") candidates))
        <= Z.max 0 (10 `div` 6 + 1))%Z.
Proof.
  eexists. split; [vm_compute; reflexivity|].
  refine (scraper_coverage.find_and_download_candidates_share
            (P := demo.platform) new_CheeseScraper demo.web "2025-03-01"
            10%Z empty_fs _ "blue" _ _).
  - apply (bool_decide_unpack _). vm_compute. exact I.
  - vm_compute. reflexivity.
Defined.


Lemma load_agent_state_not_a_dict_witness :
  load_agent_state (demo.world_with (Stored (JArr [])))
  = JObj default_state
  /\ load_agent_state
       (demo.world_with
          (Stored (JArr [JStr "daily_stats"; JStr "pending_uploads";
                         JStr "total_images_scraped"])))
     = JArr [JStr "daily_stats"; JStr "pending_uploads"; JStr "total_images_scraped"].
Proof.
  split.
  - refine (proj1 (agent_coverage.load_agent_state_not_a_dict
                     (demo.world_with (Stored (JArr []))) (JArr []) eq_refl _)).
    discriminate.
  - refine (proj1 (agent_coverage.load_agent_state_not_a_dict
                     (demo.world_with (Stored (JArr [JStr "daily_stats";
                                                     JStr "pending_uploads";
                                                     JStr "total_images_scraped"])))
                     _ eq_refl _)).
    discriminate.
Defined.

Lemma save_then_load_witness :
  let self := new_CheeseScrapingAgent true (demo.world_with (Stored demo.one_queued)) in
  load_agent_state (save_agent_state self demo.fresh_world) = demo.one_queued.
Proof.
  exact (agent_coverage.save_then_load
           (new_CheeseScrapingAgent true (demo.world_with (Stored demo.one_queued)))
           demo.fresh_world
           (agent_coverage.load_agent_state_complete
              (demo.world_with (Stored demo.one_queued)))).
Defined.

Lemma run_then_load_witness :
  let w := demo.world_with (Stored demo.one_queued) in
  let self := new_CheeseScrapingAgent true w in
  let after := run (P := demo.platform) demo.search_twice "2025-03-01" self w in
  load_agent_state (snd after) = state (fst after).
Proof.
  exact (proj1 (agent_coverage.run_then_load (P := demo.platform)
                  demo.search_twice "2025-03-01"
                  (new_CheeseScrapingAgent true (demo.world_with (Stored demo.one_queued)))
                  (demo.world_with (Stored demo.one_queued))
                  new_CheeseScraper eq_refl eq_refl
                  (agent_coverage.load_agent_state_complete
                     (demo.world_with (Stored demo.one_queued))))).
Defined.

Lemma run_adds_nothing_when_all_queued_witness :
  let block :=
    try_block (P := demo.platform) "2025-03-02" demo.stock
      (Ok [demo.candidate "blue"]) demo.one_queued in
  getitem (fst block) "pending_uploads" = getitem demo.one_queued "pending_uploads"
  /\ total_of (fst block) = Some 1%Z.
Proof.
  destruct (agent_coverage.run_adds_nothing_when_all_queued (P := demo.platform)
              "2025-03-02" demo.stock [demo.candidate "blue"]
              [queue_entry (P := demo.platform) (demo.candidate "blue") "large"]
              demo.one_queued
              (fst (try_block (P := demo.platform) "2025-03-02" demo.stock
                      (Ok [demo.candidate "blue"]) demo.one_queued))
              (snd (try_block (P := demo.platform) "2025-03-02" demo.stock
                      (Ok [demo.candidate "blue"]) demo.one_queued))
              [entry_json
                 (queue_entry (P := demo.platform) (demo.candidate "blue") "large")]
              eq_refl eq_refl)
    as (Hp & Ht & _).
  - intros e ->%list_elem_of_singleton. vm_compute. left.
  - apply surjective_pairing.
  - split; [exact Hp | exact Ht].
Defined.

Lemma second_run_adds_nothing_witness :
  let first :=
    try_block (P := demo.platform) "2025-03-01" demo.stock (Ok demo.three)
      (JObj default_state) in
  let second :=
    try_block (P := demo.platform) "2025-03-02" demo.stock (Ok demo.three)
      (fst first) in
  snd first = Ok (Some 2%Z)
  /\ getitem (fst second) "pending_uploads" = getitem (fst first) "pending_uploads"
  /\ total_of (fst second) = total_of (fst first).
Proof.
  split; [reflexivity|].
  destruct (agent_coverage.second_run_adds_nothing (P := demo.platform)
              "2025-03-01" "2025-03-02" demo.stock demo.three (JObj default_state)
              (fst (try_block (P := demo.platform) "2025-03-01" demo.stock
                      (Ok demo.three) (JObj default_state)))
              (fst (try_block (P := demo.platform) "2025-03-02" demo.stock
                      (Ok demo.three)
                      (fst (try_block (P := demo.platform) "2025-03-01" demo.stock
                              (Ok demo.three) (JObj default_state)))))
              2%Z
              (snd (try_block (P := demo.platform) "2025-03-02" demo.stock
                      (Ok demo.three)
                      (fst (try_block (P := demo.platform) "2025-03-01" demo.stock
                              (Ok demo.three) (JObj default_state))))))
    as (Hp & Ht & _).
  - vm_compute. reflexivity.
  - apply surjective_pairing.
  - split; [exact Hp | exact Ht].
Defined.

Lemma run_with_a_missing_file_witness :
  let w := demo.world_with (Stored demo.one_queued) in
  let self := new_CheeseScrapingAgent true w in
  state (fst (run (P := demo.platform) demo.search_lost "2025-03-01" self w))
  = state self.
Proof.
  refine (proj2 (agent_coverage.run_with_a_missing_file (P := demo.platform)
                   demo.search_lost "2025-03-01"
                   (new_CheeseScrapingAgent true (demo.world_with (Stored demo.one_queued)))
                   (demo.world_with (Stored demo.one_queued))
                   new_CheeseScraper empty_fs demo.three (demo.candidate "hard")
                   eq_refl eq_refl _ eq_refl)).
  right. left.
Defined.

Lemma run_with_a_total_that_is_no_number_witness :
  exists st' e,
    try_block (P := demo.platform) "2025-03-01" demo.stock (Ok demo.three)
      demo.bad_total = (st', Raise e)
    /\ pending_of st' <> Some []
    /\ getitem st' "daily_stats" = Ok (JObj []).
Proof.
  destruct (agent_coverage.run_with_a_total_that_is_no_number (P := demo.platform)
              "2025-03-01" demo.stock demo.three
              [queue_entry (P := demo.platform) (demo.candidate "blue") "large";
               queue_entry (P := demo.platform) (demo.candidate "hard") "large";
               queue_entry (P := demo.platform) (demo.candidate "blue") "large"]
              demo.bad_total [] [])
    as (st' & e & Hrun & Hp & Hframe); try reflexivity; [discriminate|].
  exists st', e. split; [exact Hrun|]. split.
  - unfold pending_of. rewrite Hp. vm_compute. discriminate.
  - rewrite Hframe by discriminate. reflexivity.
Defined.

Lemma run_with_a_queue_that_is_no_list_witness :
  exists e,
    try_block (P := demo.platform) "2025-03-01" demo.stock (Ok demo.three)
      demo.bad_queue = (demo.bad_queue, Raise e).
Proof.
  apply (agent_coverage.run_with_a_queue_that_is_no_list (P := demo.platform));
    discriminate.
Defined.




Lemma run_queues_every_candidate_witness :
  let block :=
    try_block (P := demo.platform) "2025-03-01" demo.stock (Ok demo.three)
      demo.one_queued in
  exists items',
    getitem (fst block) "pending_uploads" = Ok (JArr items')
    /\ JStr ("file://" +:+
             path_resolve (Platform := demo.platform)
               (cand_file_path (demo.candidate "hard")))
       ∈ entry_paths items'.
Proof.
  refine (agent_coverage.run_queues_every_candidate (P := demo.platform)
            "2025-03-01" demo.stock demo.three demo.one_queued _ 1%Z
            (demo.candidate "hard") _ _).
  - vm_compute. reflexivity.
  - right. left.
Defined.

End coverage_instances.
